(** * pyFUME: the Simpful code generator ([pyfume/simpfulfier.py])

    A shallow embedding of the class [SimpfulConverter], which turns the
    description of a Takagi-Sugeno fuzzy model into the text of a Simpful
    program, together with the properties of that translation.

    Python values are modelled as follows.
    - Strings are [string]; lists are [list]; [None]-or-value arguments are
      [option].
    - The dictionary [fuzzy_sets_to_drop], keyed by pairs
      [(variable index, cluster index)], is a [gmap (nat * nat) Z].
    - Exceptions are the constructors of [exn]; a function that can raise
      returns a [result].
    - The only mutable attribute, [_source_code], is threaded through
      [generate_code] by the state-and-exception monad [Method]: a raised
      exception keeps the lines appended before it.
    - Numbers are kept abstract (the type [value]) together with the
      conversions the code applies to them: [%e], [%f] and [str].  Module
      [PyInt] instantiates them for Python integers. *)

From Stdlib Require Import ZArith Ascii String.
From stdpp Require Import base option list gmap strings pretty.

Open Scope string_scope.
Open Scope list_scope.
Open Scope nat_scope.

(** ** Python strings *)

(** The double quote and the line feed, built from their codes. *)
Definition dq : string := String (ascii_of_nat 34) EmptyString.
Definition nl : string := String (ascii_of_nat 10) EmptyString.

(** [sep.join(parts)] *)
Definition join (sep : string) (parts : list string) : string :=
  String.concat sep parts.

(** ["%d" % n] on an index and on an integer. *)
Definition fmt_d (n : nat) : string := pretty n.
Definition fmt_dZ (z : Z) : string := pretty z.

(** [range(lo, hi)] *)
Definition range (lo hi : nat) : list nat := seq lo (hi - lo).

(** [enumerate(l)] *)
Definition enumerate {A} (l : list A) : list (nat * A) := imap pair l.

(** ** Exceptions *)

Inductive exn : Type :=
| AssertionError
| IndexError
| Exception (msg : string).

Inductive result (A : Type) : Type :=
| Ok (a : A)
| Raise (e : exn).
Arguments Ok {A} a.
Arguments Raise {A} e.

Global Instance result_ret : MRet result := λ A a, Ok a.
Global Instance result_bind : MBind result := λ A B k r,
  match r with
  | Ok a => k a
  | Raise e => Raise e
  end.

(** [l[i]] for a non-negative [i] *)
Definition index {A} (l : list A) (i : nat) : result A :=
  match l !! i with
  | Some a => Ok a
  | None => Raise IndexError
  end.

(** [l[-1]] *)
Definition index_last {A} (l : list A) : result A :=
  match last l with
  | Some a => Ok a
  | None => Raise IndexError
  end.

(** [assert(b)] *)
Definition py_assert (b : bool) : result unit :=
  if b then Ok () else Raise AssertionError.

(** A [for] loop whose body may raise, threading the loop's local state. *)
Fixpoint for_fold {A S} (body : S → A → result S) (s : S) (l : list A) : result S :=
  match l with
  | [] => Ok s
  | a :: l' => s' ← body s a; for_fold body s' l'
  end.

(** A list comprehension whose element expression may raise. *)
Fixpoint for_map {A B} (f : A → result B) (l : list A) : result (list B) :=
  match l with
  | [] => Ok []
  | a :: l' => b ← f a; bs ← for_map f l'; Ok (b :: bs)
  end.

Definition is_ok {A} (r : result A) : bool :=
  match r with Ok _ => true | Raise _ => false end.

(** ** The converter *)

Section Converter.

(** Numbers, universe-of-discourse bounds and operator lists, with the
    conversions to text that the code applies to them. *)
Context {value bounds operators_t : Type}.
Context (fmt_e : value → string).            (* "%e" % v *)
Context (fmt_f : value → string).            (* "%f" % v *)
Context (str_row : list value → string).     (* "%s" % row *)
Context (str_bounds : bounds → string).      (* "%s" % extreme_values[i] *)
Context (str_operators : operators_t → string). (* str(operators) *)

Record SimpfulConverter : Type := {
  _input_variables : list string;
  _consequents_matrix : list (list value);
  _clusters : nat;
  _fuzzy_sets : list (string * list value);
  _model_order : string;
  _fuzzy_sets_to_drop : gmap (nat * nat) Z;
  _extreme_values : option (list bounds);
  _source_code : list string
}.

Definition header_lines (operators : option operators_t) : list string :=
  [ "# WARNING: this source code was automatically generated by pyFUME.";
    "from simpful import *";
    match operators with
    | None => nl +:+ "FS = FuzzySystem(show_banner=False)"
    | Some ops => nl +:+ "FS = FuzzySystem(operators=" +:+ str_operators ops +:+ ")"
    end ].

Definition __init__
    (input_variables_names : list string)
    (consequents_matrix : list (list value))
    (fuzzy_sets : list (string * list value))
    (model_order : string)
    (fuzzy_sets_to_drop : option (gmap (nat * nat) Z))
    (extreme_values : option (list bounds))
    (operators : option operators_t) : result SimpfulConverter :=
  (if decide (model_order = "first") then
     row0 ← index consequents_matrix 0;
     py_assert (bool_decide (length input_variables_names + 1 = length row0))
   else Ok ());;
  Ok {| _input_variables := input_variables_names;
         _consequents_matrix := consequents_matrix;
         _clusters := length consequents_matrix;
         _fuzzy_sets := fuzzy_sets;
         _model_order := model_order;
         _fuzzy_sets_to_drop := default ∅ fuzzy_sets_to_drop;
         _extreme_values := extreme_values;
         _source_code := header_lines operators |}.

(** *** Rules *)

Definition _create_antecedents (self : SimpfulConverter) : list string :=
  (λ i,
     let pieces :=
       (λ '(j, var),
          let value :=
            match _fuzzy_sets_to_drop self !! (j, i) with
            | Some r => "cluster" +:+ fmt_dZ (r + 1)
            | None => "cluster" +:+ fmt_d (i + 1)
            end in
          "(" +:+ var +:+ " IS " +:+ value +:+ ")")
       <$> enumerate (_input_variables self) in
     join " AND " pieces)
  <$> range 0 (_clusters self).

Definition create_rules (self : SimpfulConverter) : list string :=
  let A := _create_antecedents self in
  let B := (λ i, "fun" +:+ fmt_d (i + 1)) <$> range 0 (_clusters self) in
  (λ '(a, b), "IF " +:+ a +:+ " THEN (OUTPUT IS " +:+ b +:+ ")") <$> zip A B.

(** *** Consequents *)

Definition consequent_of_row (names : list string) (row : list value)
  : result string :=
  let terms :=
    join "+" ((λ '(name, value), fmt_e value +:+ "*" +:+ name)
              <$> zip names (take (length row - 1) row)) in
  bias ← index_last row;
  Ok (terms +:+ ("+" +:+ fmt_e bias)).

Definition _create_consequents (self : SimpfulConverter) : result (list string) :=
  for_map (consequent_of_row (_input_variables self)) (_consequents_matrix self).

(** *** Fuzzy sets and linguistic variables *)

(** The membership-function call selected by the shape tag: the chain of
    [if fstype == ...] of [_create_fuzzy_sets]. *)
Definition membership_function (fstype : string) (params : list value)
    (term : string) : result string :=
  if decide (fstype = "gauss") then
    p0 ← index params 0; p1 ← index params 1;
    Ok ("function=Gaussian_MF(" +:+ fmt_f p0 +:+ ", " +:+ fmt_f p1
        +:+ "), term='" +:+ term +:+ "')")
  else if decide (fstype = "gauss2") then
    p0 ← index params 0; p1 ← index params 1;
    p2 ← index params 2; p3 ← index params 3;
    Ok ("function=DoubleGaussian_MF(" +:+ fmt_f p0 +:+ ", " +:+ fmt_f p1
        +:+ ", " +:+ fmt_f p2 +:+ ", " +:+ fmt_f p3
        +:+ "), term='" +:+ term +:+ "')")
  else if decide (fstype = "sigmoid") then
    p0 ← index params 0; p1 ← index params 1;
    Ok ("function=Sigmoid_MF(" +:+ fmt_f p0 +:+ ", " +:+ fmt_f p1
        +:+ "), term='" +:+ term +:+ "')")
  else if decide (fstype = "invgauss") then
    p0 ← index params 0; p1 ← index params 1;
    Ok ("function=InvGaussian_MF(" +:+ fmt_f p0 +:+ ", " +:+ fmt_f p1
        +:+ "), term='" +:+ term +:+ "')")
  else Raise (Exception ("Fuzzy set type not supported," +:+ fstype)).

(** [(num_var, cluster) in self._fuzzy_sets_to_drop] *)
Definition dropped (self : SimpfulConverter) (num_var cluster : nat) : bool :=
  bool_decide (is_Some (_fuzzy_sets_to_drop self !! (num_var, cluster))).

(** The local variables of [_create_fuzzy_sets]. *)
Record fs_locals : Type := {
  j : nat;
  chunk : string;
  subchunk : list string
}.

(** One round of the inner loop, [for cluster in range(self._clusters)]. *)
Definition cluster_body (self : SimpfulConverter) (num_var : nat)
    (st : fs_locals) (cluster : nat) : result fs_locals :=
  let chunk1 := if dropped self num_var cluster
                then chunk st +:+ "# " else chunk st in
  let chunk2 := chunk1 +:+ ("FS_" +:+ fmt_d (j st + 1) +:+ " = FuzzySet(") in
  let term := "cluster" +:+ fmt_d (cluster + 1) in
  '(fstype, params) ← index (_fuzzy_sets self) (j st);
  call ← membership_function fstype params term;
  let chunk3 := chunk2 +:+ call in
  let subchunk1 := if negb (dropped self num_var cluster)
                   then subchunk st ++ ["FS_" +:+ fmt_d (j st + 1)]
                   else subchunk st in
  Ok {| j := j st + 1; chunk := chunk3 +:+ nl; subchunk := subchunk1 |}.

(** The declaration of the linguistic variable [var] over [members]. *)
Definition linguistic_variable (self : SimpfulConverter) (num_var : nat)
    (var : string) (members : list string) : result string :=
  match _extreme_values self with
  | None =>
      Ok ("MF_" +:+ var +:+ " = LinguisticVariable([" +:+ join ", " members
          +:+ "], concept='" +:+ var +:+ "')" +:+ nl)
  | Some extreme_values =>
      b ← index extreme_values num_var;
      Ok ("MF_" +:+ var +:+ " = LinguisticVariable([" +:+ join ", " members
          +:+ "], concept='" +:+ var +:+ "' , universe_of_discourse="
          +:+ str_bounds b +:+ ")" +:+ nl)
  end.

(** One round of the outer loop,
    [for num_var, var in enumerate(self._input_variables)]. *)
Definition variable_body (self : SimpfulConverter) (st : fs_locals)
    (nv : nat * string) : result fs_locals :=
  let '(num_var, var) := nv in
  st1 ← for_fold (cluster_body self num_var)
          {| j := j st; chunk := chunk st; subchunk := [] |}
          (range 0 (_clusters self));
  lv ← linguistic_variable self num_var var (subchunk st1);
  let chunk1 := chunk st1 +:+ lv in
  let chunk2 := chunk1 +:+ ("FS.add_linguistic_variable('" +:+ var +:+ "', MF_"
                            +:+ var +:+ ")" +:+ nl +:+ nl) in
  Ok {| j := j st1; chunk := chunk2; subchunk := subchunk st1 |}.

Definition _create_fuzzy_sets (self : SimpfulConverter) : result string :=
  st ← for_fold (variable_body self)
         {| j := 0; chunk := EmptyString; subchunk := [] |}
         (enumerate (_input_variables self));
  Ok (chunk st).

(** *** Methods that append to [self._source_code] *)

(** A method that may mutate [self] and may raise: it returns its outcome
    and the object as the call left it, also when it raises. *)
Definition Method (A : Type) : Type :=
  SimpfulConverter → result A * SimpfulConverter.

Definition m_ret {A} (a : A) : Method A := λ self, (Ok a, self).

Definition m_bind {A B} (m : Method A) (k : A → Method B) : Method B :=
  λ self,
    match m self with
    | (Ok a, self') => k a self'
    | (Raise e, self') => (Raise e, self')
    end.

(** Evaluate an expression that reads [self] and may raise. *)
Definition eval {A} (f : SimpfulConverter → result A) : Method A :=
  λ self, (f self, self).

(** Read an attribute of [self]. *)
Definition attr {A} (f : SimpfulConverter → A) : Method A :=
  λ self, (Ok (f self), self).

(** [self] after [lines] have been appended to [self._source_code]. *)
Definition append_source (self : SimpfulConverter) (lines : list string)
  : SimpfulConverter :=
  {| _input_variables := _input_variables self;
     _consequents_matrix := _consequents_matrix self;
     _clusters := _clusters self;
     _fuzzy_sets := _fuzzy_sets self;
     _model_order := _model_order self;
     _fuzzy_sets_to_drop := _fuzzy_sets_to_drop self;
     _extreme_values := _extreme_values self;
     _source_code := _source_code self ++ lines |}.

(** [self._source_code.append(line)] *)
Definition source_append (line : string) : Method unit :=
  λ self, (Ok (), append_source self [line]).

(** A [for] loop whose body is a statement of the method. *)
Fixpoint for_each {A} (l : list A) (body : A → Method unit) : Method unit :=
  match l with
  | [] => m_ret ()
  | a :: l' => m_bind (body a) (λ _, for_each l' body)
  end.

Local Notation "x <- m ;; k" := (m_bind m (λ x, k))
  (at level 100, m at next level, right associativity, only parsing).
Local Notation "m ;;; k" := (m_bind m (λ _, k))
  (at level 100, right associativity, only parsing).

Definition generate_code : Method string :=
  (* rules *)
  rule_texts <- attr create_rules ;;
  clusters <- attr _clusters ;;
  for_each (range 1 (clusters + 1)) (λ i,
    text <- eval (λ _, index rule_texts (i - 1)) ;;
    source_append ("RULE" +:+ fmt_d i +:+ " = " +:+ dq +:+ text +:+ dq)) ;;;
  source_append ("FS.add_rules(["
                 +:+ join ", " ((λ i, "RULE" +:+ fmt_d i) <$> range 1 (clusters + 1))
                 +:+ "])") ;;;
  source_append EmptyString ;;;
  (* output functions *)
  model_order <- attr _model_order ;;
  (if decide (model_order = "first") then
     B <- eval _create_consequents ;;
     for_each (range 0 clusters) (λ i,
       b <- eval (λ _, index B i) ;;
       source_append ("FS.set_output_function('" +:+ ("fun" +:+ fmt_d (i + 1))
                      +:+ "', '" +:+ b +:+ "')"))
   else if decide (model_order = "zero") then
     for_each (range 0 clusters) (λ i,
       row <- eval (λ self, index (_consequents_matrix self) i) ;;
       source_append ("FS.set_crisp_output_value('" +:+ ("fun" +:+ fmt_d (i + 1))
                      +:+ "', " +:+ str_row row +:+ ")"))
   else
     eval (λ _, Raise (Exception ("Model order not supported," +:+ model_order)))) ;;;
  source_append EmptyString ;;;
  (* fuzzy sets and membership functions *)
  result <- eval _create_fuzzy_sets ;;
  source_append result ;;;
  source_append "# end of automatically generated code #" ;;;
  source_code <- attr _source_code ;;
  m_ret (join nl source_code).

(** *** The generated document, spelled out

    The lines that one call of [generate_code] appends, and the block of
    fuzzy sets and linguistic variables, written as data.  The theorems
    below show that the loops of the code compute exactly these. *)

(** What [__init__] establishes and no method changes. *)
Definition constructed (self : SimpfulConverter) : Prop :=
  _clusters self = length (_consequents_matrix self).

Definition rule_line (i : nat) (text : string) : string :=
  "RULE" +:+ fmt_d i +:+ " = " +:+ dq +:+ text +:+ dq.

Definition rule_lines (self : SimpfulConverter) : list string :=
  zip_with rule_line (range 1 (_clusters self + 1)) (create_rules self).

Definition add_rules_line (self : SimpfulConverter) : string :=
  "FS.add_rules(["
  +:+ join ", " ((λ i, "RULE" +:+ fmt_d i) <$> range 1 (_clusters self + 1))
  +:+ "])".

Definition output_function_line (i : nat) (expression : string) : string :=
  "FS.set_output_function('" +:+ ("fun" +:+ fmt_d (i + 1))
  +:+ "', '" +:+ expression +:+ "')".

Definition crisp_output_line (i : nat) (row : list value) : string :=
  "FS.set_crisp_output_value('" +:+ ("fun" +:+ fmt_d (i + 1))
  +:+ "', " +:+ str_row row +:+ ")".

Definition output_lines (self : SimpfulConverter) : result (list string) :=
  if decide (_model_order self = "first") then
    B ← _create_consequents self; Ok (imap output_function_line B)
  else if decide (_model_order self = "zero") then
    Ok (imap crisp_output_line (_consequents_matrix self))
  else Raise (Exception ("Model order not supported," +:+ _model_order self)).

Definition trailer : string := "# end of automatically generated code #".

Definition generated_lines (self : SimpfulConverter) : result (list string) :=
  outputs ← output_lines self;
  chunk ← _create_fuzzy_sets self;
  Ok (rule_lines self ++ [add_rules_line self; EmptyString]
      ++ outputs ++ [EmptyString; chunk; trailer]).

(** The text of one variable in the fuzzy-set block. *)
Record variable_block : Type := {
  declarations : list string;  (* one per cluster, each with its line feed *)
  members : list string;       (* the names listed in the linguistic variable *)
  lv_declaration : string;
  registration : string
}.

Definition concat_strings (parts : list string) : string :=
  foldr String.append EmptyString parts.

Definition render (b : variable_block) : string :=
  concat_strings (declarations b) +:+ lv_declaration b +:+ registration b.

(** The number of the fuzzy set of a (variable, cluster) pair. *)
Definition fuzzy_set_number (self : SimpfulConverter) (num_var cluster : nat) : nat :=
  num_var * _clusters self + cluster + 1.

Definition fuzzy_set_name (self : SimpfulConverter) (num_var cluster : nat) : string :=
  "FS_" +:+ fmt_d (fuzzy_set_number self num_var cluster).

Definition fuzzy_set_declaration (self : SimpfulConverter)
    (num_var cluster : nat) : result string :=
  '(fstype, params) ← index (_fuzzy_sets self) (num_var * _clusters self + cluster);
  call ← membership_function fstype params ("cluster" +:+ fmt_d (cluster + 1));
  Ok ((if dropped self num_var cluster then "# " else EmptyString)
      +:+ fuzzy_set_name self num_var cluster +:+ " = FuzzySet(" +:+ call +:+ nl).

Definition kept_names (self : SimpfulConverter) (num_var : nat)
    (clusters : list nat) : list string :=
  fuzzy_set_name self num_var <$> filter (λ c, ¬ dropped self num_var c) clusters.

Definition fuzzy_set_block (self : SimpfulConverter) (nv : nat * string)
  : result variable_block :=
  decls ← for_map (fuzzy_set_declaration self nv.1) (range 0 (_clusters self));
  let names := kept_names self nv.1 (range 0 (_clusters self)) in
  lv ← linguistic_variable self nv.1 nv.2 names;
  Ok {| declarations := decls;
        members := names;
        lv_declaration := lv;
        registration := "FS.add_linguistic_variable('" +:+ nv.2 +:+ "', MF_"
                        +:+ nv.2 +:+ ")" +:+ nl +:+ nl |}.

Definition fuzzy_set_blocks (self : SimpfulConverter) : result (list variable_block) :=
  for_map (fuzzy_set_block self) (enumerate (_input_variables self)).

End Converter.

Arguments SimpfulConverter : clear implicits.

(** ** Python integers as numbers

    The conversions of Section [Converter] when the numbers of the model are
    Python integers ([Z]).  [%e] and [%f] first convert their argument to a
    double; [float_of_int] is that conversion for integers below the
    overflow threshold, rounding to 53 significant bits, ties to even. *)
Module PyInt.
Local Open Scope Z_scope.

Definition float_of_int (z : Z) : Z :=
  let a := Z.abs z in
  let bits := Z.log2 a + 1 in
  if (bits <=? 53)%Z then z
  else
    let shift := (bits - 53)%Z in
    let q := Z.shiftr a shift in
    let r := Z.land a (Z.ones shift) in
    let half := Z.shiftl 1 (shift - 1) in
    let q' := if (half <? r)%Z || ((r =? half)%Z && Z.odd q)
              then (q + 1)%Z else q in
    (Z.sgn z * Z.shiftl q' shift)%Z.

Definition sign (z : Z) : string :=
  if (z <? 0)%Z then "-" else EmptyString.

(** ["%f" % z]: six digits after the point. *)
Definition fmt_f (z : Z) : string :=
  let x := float_of_int z in
  sign x +:+ pretty (Z.abs x) +:+ ".000000".

(** Round [a / 10^k] to an integer, ties to even. *)
Definition round_div_pow10 (a k : Z) : Z :=
  let d := (10 ^ k)%Z in
  let q := (a / d)%Z in
  let r := (a mod d)%Z in
  if (d <? 2 * r)%Z || ((2 * r =? d)%Z && Z.odd q) then (q + 1)%Z else q.

Definition pad2 (s : string) : string :=
  if decide (String.length s < 2)%nat then "0" +:+ s else s.

Definition point_after_first (s : string) : string :=
  match s with
  | EmptyString => EmptyString
  | String c rest => String c ("." +:+ rest)
  end.

(** ["%e" % z]: one digit, the point, six digits, and the exponent. *)
Definition fmt_e (z : Z) : string :=
  let x := float_of_int z in
  let a := Z.abs x in
  if (a =? 0)%Z then "0.000000e+00"
  else
    let k := (Z.of_nat (String.length (pretty a)) - 1)%Z in
    let m := if (k <=? 6)%Z then (a * 10 ^ (6 - k))%Z
             else round_div_pow10 a (k - 6) in
    let '(m, k) := if (m =? 10 ^ 7)%Z then (10 ^ 6, k + 1)%Z else (m, k) in
    sign x +:+ point_after_first (pretty m) +:+ "e+" +:+ pad2 (pretty k).

(** [str(row)] of a list of integers. *)
Definition str_row (row : list Z) : string :=
  "[" +:+ join ", " (pretty <$> row) +:+ "]".

(** [str(b)] of a pair of integers. *)
Definition str_bounds (b : Z * Z) : string :=
  "(" +:+ pretty b.1 +:+ ", " +:+ pretty b.2 +:+ ")".

(** [str(ops)] of a list of operator names (names without quotes or
    characters that [repr] escapes). *)
Definition str_operators (ops : list string) : string :=
  "[" +:+ join ", " ((λ s, "'" +:+ s +:+ "'") <$> ops) +:+ "]".

Definition converter : Type := SimpfulConverter Z (Z * Z).

Definition new := __init__ (value := Z) (bounds := Z * Z) str_operators.

Definition generate : converter → result string * converter :=
  generate_code fmt_e fmt_f str_row str_bounds.

End PyInt.

(** ** Sample models

    Small models over Python integers, used below to run the converter. *)
Module Example.
Import PyInt.
Local Open Scope Z_scope.

(** The converter that [SimpfulConverter(...)] returns for a model that
    passes the check of [__init__], with [operators] left to [None]. *)
Definition built (vars : list string) (matrix : list (list Z))
    (fuzzy_sets : list (string * list Z)) (order : string)
    (drop : gmap (nat * nat) Z) (extreme_values : option (list (Z * Z)))
  : converter :=
  {| _input_variables := vars;
     _consequents_matrix := matrix;
     _clusters := length matrix;
     _fuzzy_sets := fuzzy_sets;
     _model_order := order;
     _fuzzy_sets_to_drop := drop;
     _extreme_values := extreme_values;
     _source_code := header_lines str_operators None |}.

(** Two variables and one zero-order rule. *)
Definition xy : converter :=
  built ["x"; "y"] [[1; 2; 3]]
    [("gauss", [0; 1]); ("gauss", [1; 1])] "zero" ∅ None.

(** A first-order model in one variable whose second row is too long. *)
Definition ragged_matrix : list (list Z) := [[1; 2]; [1; 2; 3]].

(** A first-order model in one variable with coefficient [c] and bias 0. *)
Definition line (c : Z) : converter :=
  built ["x"] [[c; 0]] [("gauss", [0; 1])] "first" ∅ None.

(** One variable, two zero-order rules; the fuzzy set of the second
    cluster is dropped in favour of the first, and the universe of
    discourse of the variable is given. *)
Definition simplified : converter :=
  built ["x"] [[1]; [2]] [("gauss", [0; 1]); ("gauss", [0; 1])] "zero"
    {[ (0%nat, 1%nat) := 0 ]} (Some [(0, 10)]).


(** A model order that the converter does not know. *)
Definition second_order : converter :=
  built ["x"] [[1]] [("gauss", [0; 1])] "second" ∅ None.

(** A zero-order model without input variables. *)
Definition constant : converter := built [] [[1]] [] "zero" ∅ None.

(** A zero-order model without clusters. *)
Definition vacant : converter := built ["x"] [] [] "zero" ∅ None.

(** [str(b)] of an entry of [extreme_values] that may be [None]. *)
Definition str_optional_bounds (b : option (Z * Z)) : string :=
  match b with
  | Some b => str_bounds b
  | None => "None"
  end.

(** Two variables and one zero-order rule, with bounds for x and [None]
    for y. *)
Definition half_bounded : SimpfulConverter Z (option (Z * Z)) :=
  {| _input_variables := ["x"; "y"];
     _consequents_matrix := [[1]];
     _clusters := 1;
     _fuzzy_sets := [("gauss", [0; 1]); ("gauss", [1; 1])];
     _model_order := "zero";
     _fuzzy_sets_to_drop := ∅;
     _extreme_values := Some [Some (0, 10); None];
     _source_code := header_lines str_operators None |}.

(** The same model with a list of bounds that stops after x. *)
Definition short_bounded : converter :=
  built ["x"; "y"] [[1]] [("gauss", [0; 1]); ("gauss", [1; 1])] "zero" ∅
    (Some [(0, 10)]).

(** A first-order model in one variable whose second row is empty. *)
Definition hollow : converter :=
  built ["x"] [[1; 2]; []] [("gauss", [0; 1]); ("gauss", [0; 1])] "first" ∅ None.

End Example.

(** ** Saving, repeated calls and variations of a model *)

Section Uses.

Context {value bounds : Type}.
Context (fmt_e fmt_f : value → string).
Context (str_row : list value → string).
Context (str_bounds : bounds → string).

(** How [save_code] can end: it returns, [generate_code] raised, or
    [open(path, "w")] raised. *)
Inductive saved : Type :=
| Saved
| GenerationRaised (e : exn)
| OSError.

(** [save_code(path)].  The files are a map from paths to their text;
    [writable path] tells whether [open(path, "w")] succeeds.  A file that
    opens is truncated and takes the whole text. *)
Definition save_code (writable : string → bool) (path : string)
    (self : SimpfulConverter value bounds) (files : gmap string string)
  : saved * SimpfulConverter value bounds * gmap string string :=
  match generate_code fmt_e fmt_f str_row str_bounds self with
  | (Raise e, self') => (GenerationRaised e, self', files)
  | (Ok code, self') =>
      if writable path then (Saved, self', <[path := code]> files)
      else (OSError, self', files)
  end.

(** The object after [n] calls of [generate_code], whatever they returned. *)
Fixpoint generate_times (n : nat) (self : SimpfulConverter value bounds)
  : SimpfulConverter value bounds :=
  match n with
  | 0 => self
  | S n' => (generate_code fmt_e fmt_f str_row str_bounds
               (generate_times n' self)).2
  end.

(** The same model with another list of fuzzy sets. *)
Definition with_fuzzy_sets (self : SimpfulConverter value bounds)
    (fuzzy_sets : list (string * list value)) : SimpfulConverter value bounds :=
  {| _input_variables := _input_variables self;
     _consequents_matrix := _consequents_matrix self;
     _clusters := _clusters self;
     _fuzzy_sets := fuzzy_sets;
     _model_order := _model_order self;
     _fuzzy_sets_to_drop := _fuzzy_sets_to_drop self;
     _extreme_values := _extreme_values self;
     _source_code := _source_code self |}.

(** The same model with another dictionary of fuzzy sets to drop. *)
Definition with_fuzzy_sets_to_drop (self : SimpfulConverter value bounds)
    (drop : gmap (nat * nat) Z) : SimpfulConverter value bounds :=
  {| _input_variables := _input_variables self;
     _consequents_matrix := _consequents_matrix self;
     _clusters := _clusters self;
     _fuzzy_sets := _fuzzy_sets self;
     _model_order := _model_order self;
     _fuzzy_sets_to_drop := drop;
     _extreme_values := _extreme_values self;
     _source_code := _source_code self |}.

(** A fuzzy set whose shape is known and which has the parameters that its
    membership function reads. *)
Definition usable_fuzzy_set (entry : string * list value) : bool :=
  let '(fstype, params) := entry in
  if decide (fstype = "gauss") then bool_decide (2 ≤ length params)
  else if decide (fstype = "gauss2") then bool_decide (4 ≤ length params)
  else if decide (fstype = "sigmoid") then bool_decide (2 ≤ length params)
  else if decide (fstype = "invgauss") then bool_decide (2 ≤ length params)
  else false.

End Uses.

(** * Properties *)

(** ** Strings, exceptions and loops *)

Lemma append_assoc (a b c : string) : (a +:+ b) +:+ c = a +:+ (b +:+ c).
Proof.
  induction a as [|ch a IH]; [reflexivity|].
  change (String ch ((a +:+ b) +:+ c) = String ch (a +:+ (b +:+ c))).
  by rewrite IH.
Qed.

Lemma append_empty_r (a : string) : a +:+ EmptyString = a.
Proof.
  induction a as [|ch a IH]; [reflexivity|].
  change (String ch (a +:+ EmptyString) = String ch a).
  by rewrite IH.
Qed.

Lemma index_Some {A} (l : list A) i a : l !! i = Some a → index l i = Ok a.
Proof. unfold index. by intros ->. Qed.

Lemma for_map_length {A B} (f : A → result B) l xs :
  for_map f l = Ok xs → length xs = length l.
Proof.
  revert xs. induction l as [|a l IH]; simpl; intros xs H.
  - by inversion H.
  - destruct (f a); simpl in H; [|discriminate].
    destruct (for_map f l); simpl in H; [|discriminate].
    inversion H; subst. simpl. f_equal. by apply IH.
Qed.

Lemma for_map_lookup {A B} (f : A → result B) l xs i a :
  for_map f l = Ok xs → l !! i = Some a →
  ∃ b, f a = Ok b ∧ xs !! i = Some b.
Proof.
  revert xs i. induction l as [|a' l IH]; simpl; intros xs i H Hi; [done|].
  destruct (f a') as [b'|] eqn:Hf; simpl in H; [|discriminate].
  destruct (for_map f l) as [bs|]; simpl in H; [|discriminate].
  inversion H; subst. destruct i as [|i]; simpl in *.
  - inversion Hi; subst. eauto.
  - by apply IH.
Qed.

Lemma for_map_ext {A B} (f g : A → result B) l :
  (∀ i a, l !! i = Some a → f a = g a) → for_map f l = for_map g l.
Proof.
  induction l as [|a l IH]; simpl; intros H; [reflexivity|].
  rewrite (H 0 a eq_refl), IH; [reflexivity|].
  intros i b Hi. by apply (H (S i)).
Qed.



Lemma for_map_index_seq {A} (l : list A) k n :
  k + n ≤ length l →
  for_map (index l) (seq k n) = Ok (take n (drop k l)).
Proof.
  revert k. induction n as [|n IH]; simpl; intros k H.
  - reflexivity.
  - destruct (lookup_lt_is_Some_2 l k ltac:(lia)) as [a Ha].
    rewrite (index_Some _ _ _ Ha). simpl.
    rewrite IH by lia. simpl.
    rewrite (drop_S _ _ _ Ha). reflexivity.
Qed.

Lemma zip_with_seq_imap {A B} (f : nat → A → B) (l : list A) k :
  zip_with f (seq k (length l)) l = imap (λ i, f (k + i)) l.
Proof.
  revert k f. induction l as [|a l IH]; simpl; intros k f; [reflexivity|].
  rewrite Nat.add_0_r. f_equal. rewrite IH.
  apply imap_ext. intros i x _. simpl. f_equal. lia.
Qed.

(** ** One call of [generate_code] *)

Section Generation.

Context {value bounds operators_t : Type}.
Context (fmt_e fmt_f : value → string).
Context (str_row : list value → string).
Context (str_bounds : bounds → string).
Context (str_operators : operators_t → string).

Local Abbreviation converter := (SimpfulConverter value bounds).
Local Abbreviation generate := (generate_code fmt_e fmt_f str_row str_bounds).
Local Abbreviation lines_of := (generated_lines fmt_e fmt_f str_row str_bounds).
Local Abbreviation outputs_of := (output_lines fmt_e str_row).
Local Abbreviation fuzzy_sets_of := (_create_fuzzy_sets fmt_f str_bounds).

Implicit Types self : converter.

Lemma append_source_nil self : append_source self [] = self.
Proof. destruct self. unfold append_source. simpl. by rewrite app_nil_r. Qed.

Lemma append_source_app self xs ys :
  append_source (append_source self xs) ys = append_source self (xs ++ ys).
Proof. unfold append_source. simpl. by rewrite app_assoc. Qed.

(** Run the first statement of a method: an append, the reading of an
    attribute, or the evaluation of an expression. *)
Ltac step_append := unfold m_bind at 1; unfold source_append at 1.
Ltac step_attr := unfold m_bind at 1; unfold attr at 1.
Ltac step_eval := unfold m_bind at 1; unfold eval at 1.

(** A loop that evaluates an expression and appends one line per round,
    when the expression does not depend on the lines appended so far. *)
Lemma for_each_lines {A X} (h : converter → A → result X)
    (g : A → X → string) (l : list A) self (xs : list X) :
  (∀ s lines a, h (append_source s lines) a = h s a) →
  for_map (h self) l = Ok xs →
  for_each l (λ a, m_bind (eval (λ s, h s a)) (λ x, source_append (g a x))) self
  = (Ok (), append_source self (zip_with g l xs)).
Proof.
  intros Hh. revert self xs.
  induction l as [|a l IH]; simpl; intros self xs Hxs.
  - inversion Hxs; subst. simpl. by rewrite append_source_nil.
  - destruct (h self a) as [x|] eqn:Hx; simpl in Hxs; [|discriminate].
    destruct (for_map (h self) l) as [xs'|] eqn:Hxs'; simpl in Hxs; [|discriminate].
    inversion Hxs; subst xs. clear Hxs.
    unfold m_bind at 1. step_eval. rewrite Hx.
    unfold source_append at 1.
    rewrite (IH (append_source self [g a x]) xs').
    + by rewrite append_source_app.
    + rewrite <- Hxs'. apply for_map_ext. intros; apply Hh.
Qed.

Lemma create_rules_length self : length (create_rules self) = _clusters self.
Proof.
  unfold create_rules, _create_antecedents, range.
  rewrite length_fmap, length_zip_with, !length_fmap, !length_seq. lia.
Qed.

Lemma rule_texts_indexed self :
  for_map (λ i, index (create_rules self) (i - 1)) (range 1 (_clusters self + 1))
  = Ok (create_rules self).
Proof.
  unfold range.
  replace (_clusters self + 1 - 1) with (length (create_rules self))
    by (rewrite create_rules_length; lia).
  generalize (create_rules self) as l. intros l.
  assert (H : ∀ k n, k + n ≤ length l →
            for_map (λ i, index l (i - 1)) (seq (S k) n) = Ok (take n (drop k l))).
  { intros k n. revert k. induction n as [|n IH]; simpl; intros k H; [reflexivity|].
    rewrite Nat.sub_0_r.
    destruct (lookup_lt_is_Some_2 l k ltac:(lia)) as [a Ha].
    rewrite (index_Some _ _ _ Ha). simpl.
    rewrite IH by lia. simpl. by rewrite (drop_S _ _ _ Ha). }
  rewrite (H 0 (length l)) by lia.
  by rewrite drop_0, firstn_all.
Qed.

Lemma consequents_indexed self B :
  constructed self → _create_consequents fmt_e self = Ok B →
  for_map (index B) (range 0 (_clusters self)) = Ok B.
Proof.
  intros Hc HB. unfold range. rewrite Nat.sub_0_r, Hc.
  rewrite <- (for_map_length _ _ _ HB).
  rewrite for_map_index_seq by lia. by rewrite drop_0, firstn_all.
Qed.

Lemma rows_indexed self :
  constructed self →
  for_map (index (_consequents_matrix self)) (range 0 (_clusters self))
  = Ok (_consequents_matrix self).
Proof.
  intros Hc. unfold range. rewrite Nat.sub_0_r, Hc.
  rewrite for_map_index_seq by lia. by rewrite drop_0, firstn_all.
Qed.

(** The methods called by [generate_code] read nothing of
    [self._source_code]. *)
Lemma create_consequents_append self lines :
  _create_consequents fmt_e (append_source self lines)
  = _create_consequents fmt_e self.
Proof. reflexivity. Qed.

Lemma create_fuzzy_sets_append self lines :
  fuzzy_sets_of (append_source self lines) = fuzzy_sets_of self.
Proof. reflexivity. Qed.

Lemma generated_lines_append self lines :
  lines_of (append_source self lines) = lines_of self.
Proof. reflexivity. Qed.

Lemma constructed_append self lines :
  constructed self → constructed (append_source self lines).
Proof. by unfold constructed. Qed.

(** The rest of [generate_code] once the consequent statements [outs] are
    in the document. *)
Lemma generate_code_tail self (outs : list string) :
  m_bind (source_append EmptyString)
    (λ _ : (),
       m_bind (eval fuzzy_sets_of)
         (λ result0 : string,
            m_bind (source_append result0)
              (λ _ : (),
                 m_bind (source_append "# end of automatically generated code #")
                   (λ _ : (),
                      m_bind (attr _source_code)
                        (λ source_code : list string,
                           m_ret (join nl source_code))))))
    (append_source self
       (rule_lines self ++ [add_rules_line self; EmptyString] ++ outs))
  = match fuzzy_sets_of self with
    | Ok chunk0 =>
        (Ok (join nl (_source_code self ++
                      (rule_lines self ++ [add_rules_line self; EmptyString]) ++
                      outs ++ [EmptyString; chunk0; trailer])),
         append_source self
           ((rule_lines self ++ [add_rules_line self; EmptyString]) ++
            outs ++ [EmptyString; chunk0; trailer]))
    | Raise e =>
        (Raise e,
         append_source self
           ((rule_lines self ++ [add_rules_line self; EmptyString]) ++
            outs ++ [EmptyString]))
    end.
Proof.
  step_append. step_eval. cbv beta iota.
  rewrite append_source_app, create_fuzzy_sets_append.
  destruct (fuzzy_sets_of self) as [chunk0|e].
  - step_append. step_append. step_attr.
    unfold m_ret. cbv beta iota.
    rewrite !append_source_app. fold trailer.
    rewrite <- !app_assoc. reflexivity.
  - rewrite <- !app_assoc. reflexivity.
Qed.

(** The outcome of one call, for every way it can end. *)
Theorem generate_code_spec self :
  constructed self →
  generate self =
    let rules := rule_lines self ++ [add_rules_line self; EmptyString] in
    match outputs_of self with
    | Raise e => (Raise e, append_source self rules)
    | Ok outputs =>
        match fuzzy_sets_of self with
        | Raise e =>
            (Raise e, append_source self (rules ++ outputs ++ [EmptyString]))
        | Ok chunk =>
            let lines := rules ++ outputs ++ [EmptyString; chunk; trailer] in
            (Ok (join nl (_source_code self ++ lines)), append_source self lines)
        end
    end.
Proof.
  intros Hc. unfold generate_code.
  step_attr. step_attr. unfold m_bind at 1.
  rewrite (for_each_lines (λ _ i, index (create_rules self) (i - 1)) rule_line
             _ self (create_rules self)); [|done|apply rule_texts_indexed].
  fold (rule_lines self).
  step_append. step_append. step_attr.
  rewrite !append_source_app.
  fold (add_rules_line self).
  change (_model_order (append_source self _)) with (_model_order self).
  unfold output_lines.
  destruct (decide (_model_order self = "first")) as [Hfirst|Hfirst].
  - unfold m_bind at 1. step_eval.
    rewrite create_consequents_append.
    destruct (_create_consequents fmt_e self) as [B|e] eqn:HB; [|reflexivity].
    rewrite (for_each_lines (λ _ i, index B i) output_function_line _ _ B);
      [|done|by apply (consequents_indexed self)].
    rewrite append_source_app. simpl mbind.
    rewrite <- app_assoc.
    replace (zip_with output_function_line (range 0 (_clusters self)) B)
      with (imap output_function_line B); [apply generate_code_tail|].
    unfold range. rewrite Nat.sub_0_r, Hc.
    rewrite <- (for_map_length _ _ _ HB). symmetry. apply zip_with_seq_imap.
  - destruct (decide (_model_order self = "zero")) as [Hzero|Hzero].
    + unfold m_bind at 1.
      rewrite (for_each_lines (λ s i, index (_consequents_matrix s) i)
                 (crisp_output_line str_row) _ _ (_consequents_matrix self));
        [|done|exact (rows_indexed self Hc)].
      rewrite append_source_app, <- app_assoc.
      replace (zip_with (crisp_output_line str_row) (range 0 (_clusters self))
                 (_consequents_matrix self))
        with (imap (crisp_output_line str_row) (_consequents_matrix self));
        [apply generate_code_tail|].
      unfold range. rewrite Nat.sub_0_r, Hc. symmetry. apply zip_with_seq_imap.
    + reflexivity.
Qed.

(** *** The loops of [_create_fuzzy_sets] *)

Local Abbreviation declaration_of := (fuzzy_set_declaration fmt_f).
Local Abbreviation block_of := (fuzzy_set_block fmt_f str_bounds).
Local Abbreviation blocks_of := (fuzzy_set_blocks fmt_f str_bounds).

Lemma append_empty_l (a : string) : EmptyString +:+ a = a.
Proof. reflexivity. Qed.

(** One round of the inner loop declares one fuzzy set. *)
Lemma cluster_body_spec self num_var st cluster :
  j st = num_var * _clusters self + cluster →
  cluster_body fmt_f self num_var st cluster =
    d ← declaration_of self num_var cluster;
    Ok {| j := j st + 1;
          chunk := chunk st +:+ d;
          subchunk := subchunk st ++ kept_names self num_var [cluster] |}.
Proof.
  intros Hj. unfold cluster_body, fuzzy_set_declaration, fuzzy_set_name,
    fuzzy_set_number, kept_names. rewrite <- Hj.
  destruct (index (_fuzzy_sets self) (j st)) as [[fstype params]|e];
    [|reflexivity]. simpl.
  destruct (membership_function fmt_f fstype params _) as [call|e];
    [|reflexivity]. simpl.
  f_equal. rewrite filter_cons, filter_nil.
  destruct (dropped self num_var cluster) eqn:Hd; simpl.
  - rewrite app_nil_r. f_equal.
    rewrite !append_assoc. reflexivity.
  - f_equal; [by rewrite append_empty_l, !append_assoc|].
    unfold fuzzy_set_name, fuzzy_set_number. by rewrite Hj.
Qed.

Lemma kept_names_app self num_var cs1 cs2 :
  kept_names self num_var (cs1 ++ cs2)
  = kept_names self num_var cs1 ++ kept_names self num_var cs2.
Proof. unfold kept_names. by rewrite filter_app, fmap_app. Qed.

(** The inner loop declares the fuzzy sets of one variable in cluster
    order, numbering them from where the counter stands. *)
Lemma cluster_loop_spec self num_var n : ∀ first st,
  j st = num_var * _clusters self + first →
  for_fold (cluster_body fmt_f self num_var) st (seq first n) =
    decls ← for_map (declaration_of self num_var) (seq first n);
    Ok {| j := j st + n;
          chunk := chunk st +:+ concat_strings decls;
          subchunk := subchunk st ++ kept_names self num_var (seq first n) |}.
Proof.
  induction n as [|n IH]; intros first st Hj.
  - simpl. destruct st as [j0 c0 s0]. simpl.
    by rewrite Nat.add_0_r, append_empty_r, app_nil_r.
  - cbn [seq for_fold for_map].
    rewrite (cluster_body_spec _ _ _ _ Hj).
    destruct (declaration_of self num_var first) as [d|e]; [|reflexivity].
    cbn [mbind result_bind].
    rewrite IH by (simpl; lia).
    destruct (for_map (declaration_of self num_var) (seq (S first) n))
      as [decls|e]; [|reflexivity].
    cbn [mbind result_bind j chunk subchunk concat_strings foldr].
    f_equal. f_equal; [lia | by rewrite append_assoc |].
    rewrite <- app_assoc. f_equal.
    by rewrite <- kept_names_app.
Qed.

(** One round of the outer loop emits the block of one variable. *)
Lemma variable_body_spec self st num_var var :
  j st = num_var * _clusters self →
  variable_body fmt_f str_bounds self st (num_var, var) =
    b ← block_of self (num_var, var);
    Ok {| j := j st + _clusters self;
          chunk := chunk st +:+ render b;
          subchunk := members b |}.
Proof.
  intros Hj. unfold variable_body, fuzzy_set_block, range.
  rewrite Nat.sub_0_r.
  rewrite cluster_loop_spec by (simpl; lia).
  cbn [fst snd].
  destruct (for_map (declaration_of self num_var) (seq 0 (_clusters self)))
    as [decls|e]; [|reflexivity].
  cbn [mbind result_bind j chunk subchunk app].
  destruct (linguistic_variable str_bounds self num_var var _) as [lv|e];
    [|reflexivity].
  cbn [mbind result_bind j chunk subchunk].
  unfold render. cbn [declarations lv_declaration registration members].
  f_equal. f_equal. by rewrite !append_assoc.
Qed.

Lemma variable_loop_spec self (vars : list string) : ∀ first st,
  j st = first * _clusters self →
  (st' ← for_fold (variable_body fmt_f str_bounds self) st
         (imap (λ i var, (first + i, var)) vars);
   Ok (chunk st')) =
  (blocks ← for_map (block_of self) (imap (λ i var, (first + i, var)) vars);
   Ok (chunk st +:+ concat_strings (render <$> blocks))).
Proof.
  induction vars as [|var vars IH]; intros first st Hj.
  - simpl. by rewrite append_empty_r.
  - cbn [imap for_fold for_map]. rewrite Nat.add_0_r.
    rewrite (variable_body_spec _ _ _ _ Hj).
    destruct (block_of self (first, var)) as [b|e]; [|reflexivity].
    cbn [mbind result_bind].
    assert (Hshift : imap ((λ i var0, (first + i, var0)) ∘ S) vars
                     = imap (λ i var0, (S first + i, var0)) vars).
    { apply imap_ext. intros i x _. simpl. f_equal. lia. }
    rewrite Hshift.
    specialize (IH (S first)
      {| j := j st + _clusters self; chunk := chunk st +:+ render b;
         subchunk := members b |}).
    cbn [mbind result_bind] in IH. rewrite IH by (simpl; lia).
    destruct (for_map (block_of self) _) as [blocks|e]; [|reflexivity].
    cbn [mbind result_bind chunk fmap list_fmap concat_strings foldr].
    by rewrite append_assoc.
Qed.

(** [_create_fuzzy_sets] returns the blocks of the variables, in the order
    of the variables, one after the other; it raises what the first
    failing declaration raises. *)
Theorem create_fuzzy_sets_spec self :
  fuzzy_sets_of self =
    blocks ← blocks_of self; Ok (concat_strings (render <$> blocks)).
Proof.
  unfold _create_fuzzy_sets, fuzzy_set_blocks, enumerate.
  pose proof (variable_loop_spec self (_input_variables self) 0
                {| j := 0; chunk := EmptyString; subchunk := [] |} eq_refl) as H.
  exact H.
Qed.

(** *** Construction *)

Lemma init_constructed vars matrix fs order drop ev ops self :
  __init__ str_operators vars matrix fs order drop ev ops = Ok self →
  constructed self
  ∧ _input_variables self = vars
  ∧ _consequents_matrix self = matrix
  ∧ _fuzzy_sets self = fs
  ∧ _model_order self = order
  ∧ _fuzzy_sets_to_drop self = default ∅ drop
  ∧ _extreme_values self = ev
  ∧ _source_code self = header_lines str_operators ops.
Proof.
  unfold __init__. intros H.
  destruct (if decide (order = "first") then _ else _) as [[]|e];
    simpl in H; [|discriminate].
  inversion H; subst. unfold constructed. simpl. repeat split.
Qed.

(** C1 (as amended).  For a first-order model with at least one consequent
    row, construction succeeds exactly when the FIRST row has one entry
    more than there are input variables; the rows after it are not
    examined.  When the first row has another length the assertion fails:
    no converter exists, hence no text.  On success the document holds
    the three header lines and nothing generated. *)
Theorem init_first_order_checks_first_row
    (vars : list string) (row0 : list value) (rows : list (list value))
    (fs : list (string * list value)) (drop : option (gmap (nat * nat) Z))
    (ev : option (list bounds)) (ops : option operators_t) :
  __init__ str_operators vars (row0 :: rows) fs "first" drop ev ops =
    if decide (length row0 = length vars + 1)
    then Ok {| _input_variables := vars;
               _consequents_matrix := row0 :: rows;
               _clusters := S (length rows);
               _fuzzy_sets := fs;
               _model_order := "first";
               _fuzzy_sets_to_drop := default ∅ drop;
               _extreme_values := ev;
               _source_code := header_lines str_operators ops |}
    else Raise AssertionError.
Proof.
  unfold __init__. rewrite decide_True by reflexivity.
  cbn [index lookup list_lookup mbind result_bind].
  destruct (decide (length row0 = length vars + 1)) as [Heq|Hne].
  - rewrite bool_decide_eq_true_2 by lia. reflexivity.
  - rewrite bool_decide_eq_false_2 by lia. reflexivity.
Qed.

(** C10.  With model order "first" and an empty consequent matrix, the
    row-length check reads row 0 of an empty list: construction raises
    IndexError, not the AssertionError of the check.  With a non-empty
    matrix it never raises IndexError. *)
Theorem init_first_order_empty_matrix
    (vars : list string) (fs : list (string * list value))
    (drop : option (gmap (nat * nat) Z))
    (ev : option (list bounds)) (ops : option operators_t) :
  __init__ str_operators vars [] fs "first" drop ev ops = Raise IndexError
  ∧ __init__ str_operators vars [] fs "first" drop ev ops ≠ Raise AssertionError
  ∧ ∀ row0 rows,
      __init__ str_operators vars (row0 :: rows) fs "first" drop ev ops ≠ Raise IndexError.
Proof.
  split; [reflexivity|]. split; [discriminate|].
  intros row0 rows. unfold __init__. rewrite decide_True by reflexivity.
  cbn [index lookup list_lookup mbind result_bind].
  by destruct (bool_decide _).
Qed.

(** *** Calls that succeed, calls that raise *)

Lemma generated_lines_inv self lines :
  lines_of self = Ok lines →
  ∃ outputs chunk,
    outputs_of self = Ok outputs ∧ fuzzy_sets_of self = Ok chunk
    ∧ lines = rule_lines self ++ [add_rules_line self; EmptyString]
              ++ outputs ++ [EmptyString; chunk; trailer].
Proof.
  unfold generated_lines. intros H.
  destruct (outputs_of self) as [outputs|]; simpl in H; [|discriminate].
  destruct (fuzzy_sets_of self) as [chunk|]; simpl in H; [|discriminate].
  inversion H. eauto.
Qed.

Lemma generate_code_ok self lines :
  constructed self → lines_of self = Ok lines →
  generate self
  = (Ok (join nl (_source_code self ++ lines)), append_source self lines).
Proof.
  intros Hc H. rewrite generate_code_spec by done.
  destruct (generated_lines_inv _ _ H) as (outputs & chunk & -> & -> & ->).
  cbv zeta. by rewrite <- !app_assoc.
Qed.

Lemma generate_code_raise self e :
  constructed self → lines_of self = Raise e → (generate self).1 = Raise e.
Proof.
  intros Hc H. rewrite generate_code_spec by done.
  unfold generated_lines in H. cbv zeta.
  destruct (outputs_of self) as [outputs|]; simpl in H; [|by inversion H].
  destruct (fuzzy_sets_of self) as [chunk|]; simpl in H; [discriminate|].
  by inversion H.
Qed.

Lemma generate_code_result self :
  constructed self →
  (generate self).1
  = (lines ← lines_of self; Ok (join nl (_source_code self ++ lines))).
Proof.
  intros Hc. destruct (lines_of self) as [lines|e] eqn:H.
  - by rewrite (generate_code_ok _ _ Hc H).
  - by rewrite (generate_code_raise _ _ Hc H).
Qed.

(** Whatever the outcome, the call only appends to the document. *)
Lemma generate_code_appends self :
  constructed self →
  ∃ appended, (generate self).2 = append_source self appended.
Proof.
  intros Hc. rewrite generate_code_spec by done. cbv zeta.
  destruct (outputs_of self); [destruct (fuzzy_sets_of self)|]; simpl; eauto.
Qed.

(** C2.  [generate_code] never clears [self._source_code]: every call,
    also one that raises, leaves the earlier lines in place and appends
    to them.  So a second call on the same object returns a document in
    which the lines of the first call (the rule declarations, the rule
    registration, the consequent statements, the fuzzy-set block and the
    trailer) stand twice. *)
Theorem generate_code_twice_duplicates self :
  constructed self →
  (∃ appended,
     _source_code (generate self).2 = _source_code self ++ appended)
  ∧ ∀ lines, lines_of self = Ok lines →
      let first := generate self in
      let second := generate first.2 in
      first.1 = Ok (join nl (_source_code self ++ lines))
      ∧ _source_code first.2 = _source_code self ++ lines
      ∧ _source_code second.2 = _source_code self ++ lines ++ lines
      ∧ second.1 = Ok (join nl (_source_code self ++ lines ++ lines))
      ∧ ∃ outputs chunk,
          outputs_of self = Ok outputs
          ∧ lines = rule_lines self ++ [add_rules_line self; EmptyString]
                    ++ outputs ++ [EmptyString; chunk; trailer].
Proof.
  intros Hc. split.
  - destruct (generate_code_appends self Hc) as [appended ->]. eauto.
  - intros lines Hlines first second. subst first second.
    rewrite (generate_code_ok _ _ Hc Hlines). cbn [fst snd].
    rewrite (generate_code_ok (append_source self lines) lines);
      [|by apply constructed_append|by rewrite generated_lines_append].
    cbn [fst snd append_source _source_code].
    rewrite <- !app_assoc. repeat split.
    destruct (generated_lines_inv _ _ Hlines) as (outputs & chunk & ? & ? & ?).
    eauto.
Qed.

(** C8.  When the model order is neither "first" nor "zero",
    [generate_code] raises the exception "Model order not supported" and
    returns no text.  In general the call has one of two outcomes: it
    raises, and then there is no return value; or it returns, and then
    the text is the whole document, all lines of [self._source_code]
    joined by line feeds, ending with the trailer. *)
Theorem generate_code_all_or_nothing self :
  constructed self →
  (_model_order self ≠ "first" → _model_order self ≠ "zero" →
     (generate self).1
     = Raise (Exception ("Model order not supported," +:+ _model_order self)))
  ∧ ∀ text, (generate self).1 = Ok text →
      text = join nl (_source_code (generate self).2)
      ∧ ∃ outputs chunk,
          _source_code (generate self).2
          = _source_code self ++ rule_lines self
            ++ [add_rules_line self; EmptyString] ++ outputs
            ++ [EmptyString; chunk; trailer].
Proof.
  intros Hc. split.
  - intros Hfirst Hzero. apply generate_code_raise; [done|].
    unfold generated_lines, output_lines.
    rewrite decide_False by done. rewrite decide_False by done. reflexivity.
  - intros text Htext.
    destruct (lines_of self) as [lines|e] eqn:Hlines.
    + rewrite (generate_code_ok _ _ Hc Hlines) in Htext |- *.
      cbn [fst snd append_source _source_code] in *.
      inversion Htext; subst text. split; [reflexivity|].
      destruct (generated_lines_inv _ _ Hlines) as (outputs & chunk & _ & _ & ->).
      eauto.
    + rewrite (generate_code_raise _ _ Hc Hlines) in Htext. discriminate.
Qed.

(** C9.  Two converters built from the same model description, with no
    fuzzy set to drop (whether given as [None] or as an empty
    dictionary), return the same text from [generate_code], or raise the
    same exception, and hold the same document afterwards. *)
Theorem generate_code_deterministic
    (vars : list string) (matrix : list (list value))
    (fs : list (string * list value)) (order : string)
    (drop1 drop2 : option (gmap (nat * nat) Z))
    (ev : option (list bounds)) (ops : option operators_t)
    (sc1 sc2 : converter) :
  default ∅ drop1 = ∅ → default ∅ drop2 = ∅ →
  __init__ str_operators vars matrix fs order drop1 ev ops = Ok sc1 →
  __init__ str_operators vars matrix fs order drop2 ev ops = Ok sc2 →
  (generate sc1).1 = (generate sc2).1
  ∧ _source_code (generate sc1).2 = _source_code (generate sc2).2.
Proof.
  intros Hd1 Hd2 H1 H2.
  assert (sc1 = sc2) as ->; [|done].
  unfold __init__ in H1, H2. rewrite Hd1 in H1. rewrite Hd2 in H2.
  destruct (if decide (order = "first") then _ else _) as [[]|e];
    simpl in H1, H2; congruence.
Qed.

(** *** The blocks of the fuzzy-set text *)

Lemma enumerate_lookup {A} (l : list A) i a :
  l !! i = Some a → enumerate l !! i = Some (i, a).
Proof. intros H. unfold enumerate. by rewrite list_lookup_imap, H. Qed.

Lemma length_enumerate {A} (l : list A) : length (enumerate l) = length l.
Proof. unfold enumerate. apply length_imap. Qed.

Lemma range_lookup lo hi i :
  lo + i < hi → range lo hi !! i = Some (lo + i).
Proof. intros H. unfold range. apply lookup_seq_lt. lia. Qed.

Lemma blocks_lookup self blocks num_var var :
  blocks_of self = Ok blocks →
  _input_variables self !! num_var = Some var →
  ∃ b, block_of self (num_var, var) = Ok b ∧ blocks !! num_var = Some b.
Proof.
  intros Hblocks Hvar.
  apply (for_map_lookup _ _ _ _ _ Hblocks). by apply enumerate_lookup.
Qed.

Lemma blocks_length self blocks :
  blocks_of self = Ok blocks → length blocks = length (_input_variables self).
Proof.
  intros H. rewrite (for_map_length _ _ _ H). apply length_enumerate.
Qed.

Lemma block_inv self num_var var b :
  block_of self (num_var, var) = Ok b →
  for_map (declaration_of self num_var) (range 0 (_clusters self))
    = Ok (declarations b)
  ∧ members b = kept_names self num_var (range 0 (_clusters self))
  ∧ linguistic_variable str_bounds self num_var var (members b)
    = Ok (lv_declaration b)
  ∧ registration b = "FS.add_linguistic_variable('" +:+ var +:+ "', MF_"
                     +:+ var +:+ ")" +:+ nl +:+ nl.
Proof.
  unfold fuzzy_set_block. cbn [fst snd]. intros H.
  destruct (for_map _ _) as [decls|]; simpl in H; [|discriminate].
  destruct (linguistic_variable _ _ _ _ _) as [lv|] eqn:Hlv;
    simpl in H; [|discriminate].
  inversion H; subst b. simpl. by rewrite Hlv.
Qed.

Lemma declaration_lookup self num_var var b cluster :
  block_of self (num_var, var) = Ok b → cluster < _clusters self →
  ∃ d, declaration_of self num_var cluster = Ok d
       ∧ declarations b !! cluster = Some d.
Proof.
  intros Hb Hc. destruct (block_inv _ _ _ _ Hb) as (Hdecls & _).
  apply (for_map_lookup _ _ _ _ _ Hdecls).
  by rewrite range_lookup by lia.
Qed.

Lemma dropped_lookup self num_var cluster :
  dropped self num_var cluster = true
  ↔ is_Some (_fuzzy_sets_to_drop self !! (num_var, cluster)).
Proof. unfold dropped. by rewrite bool_decide_eq_true. Qed.

Lemma fuzzy_set_name_inj self num_var c1 c2 :
  fuzzy_set_name self num_var c1 = fuzzy_set_name self num_var c2 → c1 = c2.
Proof.
  unfold fuzzy_set_name, fuzzy_set_number, fmt_d. intros H.
  apply (inj (String.app "FS_")) in H.
  apply (inj pretty) in H. lia.
Qed.

Lemma kept_names_elem self num_var cs cluster :
  fuzzy_set_name self num_var cluster ∈ kept_names self num_var cs
  ↔ cluster ∈ cs ∧ dropped self num_var cluster = false.
Proof.
  unfold kept_names. rewrite list_elem_of_fmap. split.
  - intros (c & Hname & Hc). apply fuzzy_set_name_inj in Hname. subst c.
    apply list_elem_of_filter in Hc as [Hd Hc]. split; [done|].
    by destruct (dropped self num_var cluster).
  - intros [Hc Hd]. exists cluster. split; [done|].
    apply list_elem_of_filter. split; [|done]. rewrite Hd. by intros ?.
Qed.

(** *** Rules *)

Lemma rule_lines_lookup self cluster :
  cluster < _clusters self →
  ∃ pieces,
    pieces = (λ '(j, var),
               "(" +:+ var +:+ " IS " +:+
               match _fuzzy_sets_to_drop self !! (j, cluster) with
               | Some r => "cluster" +:+ fmt_dZ (r + 1)
               | None => "cluster" +:+ fmt_d (cluster + 1)
               end +:+ ")") <$> enumerate (_input_variables self)
    ∧ rule_lines self !! cluster
      = Some (rule_line (cluster + 1)
                ("IF " +:+ join " AND " pieces +:+ " THEN (OUTPUT IS "
                 +:+ ("fun" +:+ fmt_d (cluster + 1)) +:+ ")")).
Proof.
  intros Hc. eexists. split; [reflexivity|].
  unfold rule_lines, create_rules, _create_antecedents.
  rewrite lookup_zip_with, range_lookup by lia.
  rewrite list_lookup_fmap, lookup_zip_with, !list_lookup_fmap.
  rewrite range_lookup by lia. simpl.
  replace (S cluster) with (cluster + 1) by lia. reflexivity.
Qed.


(** *** Consequents *)

Lemma for_map_fmap_ok {A B C} (f : B → result C) (h : A → B) (g : A → C) l :
  (∀ a, f (h a) = Ok (g a)) → for_map f (h <$> l) = Ok (g <$> l).
Proof.
  intros H. induction l as [|a l IH]; [reflexivity|].
  cbn [fmap list_fmap for_map]. change (list_fmap A B h l) with (h <$> l).
  rewrite H, IH. reflexivity.
Qed.

(** The expression of a row that ends with its bias. *)
Lemma consequent_of_row_spec (names : list string) (coeffs : list value)
    (bias : value) :
  consequent_of_row fmt_e names (coeffs ++ [bias])
  = Ok (join "+" (zip_with (λ name c, fmt_e c +:+ "*" +:+ name) names coeffs)
        +:+ "+" +:+ fmt_e bias).
Proof.
  unfold consequent_of_row, index_last.
  rewrite last_snoc. cbn [mbind result_bind].
  rewrite length_app. cbn [length].
  replace (length coeffs + 1 - 1) with (length coeffs) by lia.
  rewrite take_app_length.
  do 3 f_equal.
  generalize coeffs. induction names as [|n ns IH]; intros [|c cs];
    cbn [zip_with fmap list_fmap]; try reflexivity.
  f_equal. apply IH.
Qed.

(** C4 (as amended).  In a first-order model whose rows each end with a
    bias, [generate_code] writes one [FS.set_output_function] statement
    per cluster, in cluster order.  Its expression pairs the input
    variables with the entries of the row before the bias, in order, as
    terms coefficient*name joined by "+", and ends with "+" and the bias.
    Every coefficient is written by the conversion [%e], whatever
    precision that conversion has. *)
Theorem first_order_output_functions
    self (rows : list (list value * value)) :
  constructed self →
  _model_order self = "first" →
  _consequents_matrix self = (λ '(coeffs, bias), coeffs ++ [bias]) <$> rows →
  let statement (i : nat) '(coeffs, bias) :=
    "FS.set_output_function('" +:+ ("fun" +:+ fmt_d (i + 1)) +:+ "', '"
    +:+ (join "+" (zip_with (λ name c, fmt_e c +:+ "*" +:+ name)
                     (_input_variables self) coeffs)
         +:+ "+" +:+ fmt_e bias)
    +:+ "')" in
  outputs_of self = Ok (imap statement rows)
  ∧ length (imap statement rows) = _clusters self
  ∧ ∀ chunk, fuzzy_sets_of self = Ok chunk →
      (generate self).1
      = Ok (join nl (_source_code self ++ rule_lines self
                     ++ [add_rules_line self; EmptyString]
                     ++ imap statement rows
                     ++ [EmptyString; chunk; trailer])).
Proof.
  intros Hc Horder Hrows statement.
  assert (Hout : outputs_of self = Ok (imap statement rows)).
  { unfold output_lines, _create_consequents.
    rewrite decide_True by done. rewrite Hrows.
    rewrite (for_map_fmap_ok _ _
               (λ '(coeffs, bias),
                  join "+" (zip_with (λ name c, fmt_e c +:+ "*" +:+ name)
                              (_input_variables self) coeffs)
                  +:+ "+" +:+ fmt_e bias)).
    - cbn [mbind result_bind]. rewrite imap_fmap. f_equal.
      apply imap_ext. by intros i [coeffs bias] _.
    - intros [coeffs bias]. apply consequent_of_row_spec. }
  split; [done|]. split.
  - rewrite length_imap, Hc, Hrows. by rewrite length_fmap.
  - intros chunk Hchunk. rewrite generate_code_result by done.
    unfold generated_lines. rewrite Hout, Hchunk. reflexivity.
Qed.

(** *** Linguistic variables *)


(** *** Shape tags *)



Lemma is_ok_bind_false {A B} (r : result A) (k : A → result B) :
  is_ok r = false → is_ok (r ≫= k) = false.
Proof. by destruct r. Qed.


(** ** Further properties of the converter *)

(** *** How many lines a call writes *)

Lemma rule_lines_length self : length (rule_lines self) = _clusters self.
Proof.
  unfold rule_lines, range.
  rewrite length_zip_with, length_seq, create_rules_length. lia.
Qed.

Lemma output_lines_length self outputs :
  constructed self → outputs_of self = Ok outputs →
  length outputs = _clusters self.
Proof.
  intros Hc. unfold output_lines.
  destruct (decide (_model_order self = "first")).
  - destruct (_create_consequents fmt_e self) as [B|] eqn:HB; [|discriminate].
    cbn [mbind result_bind]. intros H. inversion H.
    rewrite length_imap. unfold _create_consequents in HB.
    by rewrite (for_map_length _ _ _ HB).
  - destruct (decide (_model_order self = "zero")); [|discriminate].
    intros H. inversion H. by rewrite length_imap.
Qed.


(** *** What a call that raises leaves behind *)

(** X2.  A call of [generate_code] that raises has already appended the
    rule declarations, the rule registration and a blank line; when the
    exception comes from the fuzzy-set block it has also appended the
    consequent statements and a second blank line.  The document is not
    restored. *)
Theorem generate_code_raise_keeps_lines self (e : exn) :
  constructed self → (generate self).1 = Raise e →
  ∃ more,
    _source_code (generate self).2
    = _source_code self ++ rule_lines self
      ++ [add_rules_line self; EmptyString] ++ more
    ∧ ((more = [] ∧ outputs_of self = Raise e)
       ∨ ∃ outputs, outputs_of self = Ok outputs
                    ∧ fuzzy_sets_of self = Raise e
                    ∧ more = outputs ++ [EmptyString]).
Proof.
  intros Hc. rewrite generate_code_spec by done. cbv zeta.
  destruct (outputs_of self) as [outputs|e1].
  - destruct (fuzzy_sets_of self) as [chunk|e2]; cbn [fst snd]; [discriminate|].
    intros H. inversion H; subst e2.
    exists (outputs ++ [EmptyString]). split.
    + cbn [append_source _source_code]. by rewrite <- !app_assoc.
    + right. eauto.
  - cbn [fst snd]. intros H. inversion H; subst e1.
    exists []. split; [|by left].
    cbn [append_source _source_code]. by rewrite app_nil_r.
Qed.

(** X3.  The model order is not examined at construction: any order other
    than "first" builds a converter, whatever the rows of the matrix.  An
    order that is neither "first" nor "zero" is found only by
    [generate_code], after the rule lines have been appended to the
    document. *)
Theorem unsupported_order_found_late
    (vars : list string) (matrix : list (list value))
    (fs : list (string * list value)) (order : string)
    (drop : option (gmap (nat * nat) Z))
    (ev : option (list bounds)) (ops : option operators_t) :
  order ≠ "first" →
  ∃ sc,
    __init__ str_operators vars matrix fs order drop ev ops = Ok sc
    ∧ _source_code sc = header_lines str_operators ops
    ∧ (order ≠ "zero" →
       (generate sc).1
         = Raise (Exception ("Model order not supported," +:+ order))
       ∧ _source_code (generate sc).2
         = header_lines str_operators ops ++ rule_lines sc
           ++ [add_rules_line sc; EmptyString]).
Proof.
  intros Hfirst.
  destruct (__init__ str_operators vars matrix fs order drop ev ops)
    as [sc|e] eqn:Hinit.
  - destruct (init_constructed _ _ _ _ _ _ _ _ Hinit)
      as (Hc & _ & _ & _ & Horder & _ & _ & Hsrc).
    exists sc. split; [done|]. split; [done|]. intros Hzero.
    rewrite generate_code_spec by done. cbv zeta. unfold output_lines.
    rewrite Horder, !decide_False by done.
    cbn [fst snd append_source _source_code]. by rewrite Hsrc.
  - unfold __init__ in Hinit. rewrite decide_False in Hinit by done.
    discriminate Hinit.
Qed.

(** *** Consequent rows *)

Lemma consequent_of_row_ok (names : list string) (row : list value) :
  is_ok (consequent_of_row fmt_e names row) = bool_decide (row ≠ []).
Proof.
  unfold consequent_of_row, index_last.
  destruct row as [|c row] using rev_ind; [reflexivity|].
  rewrite last_snoc. cbn [mbind result_bind is_ok].
  symmetry. apply bool_decide_eq_true_2. by destruct row.
Qed.

(** X4.  [_create_consequents] returns exactly when no row of the matrix is
    empty, and otherwise raises IndexError (from [row[-1]]).  Rows are not
    compared with the number of variables. *)
Theorem create_consequents_needs_nonempty_rows self :
  (Forall (λ row, row ≠ []) (_consequents_matrix self) →
     ∃ B, _create_consequents fmt_e self = Ok B
          ∧ length B = length (_consequents_matrix self))
  ∧ (¬ Forall (λ row, row ≠ []) (_consequents_matrix self) →
     _create_consequents fmt_e self = Raise IndexError).
Proof.
  unfold _create_consequents.
  generalize (_input_variables self) as names.
  induction (_consequents_matrix self) as [|row rows IH]; intros names.
  - split; [eauto|]. intros H. by destruct H.
  - destruct (IH names) as [IHok IHraise]. cbn [for_map]. split.
    + intros H. apply Forall_cons in H as [Hrow Hrows].
      destruct (IHok Hrows) as (B & -> & HB).
      pose proof (consequent_of_row_ok names row) as Hok.
      rewrite bool_decide_eq_true_2 in Hok by done.
      destruct (consequent_of_row fmt_e names row) as [b|]; [|discriminate].
      eexists. split; [reflexivity|]. simpl. by rewrite HB.
    + intros H. destruct row as [|c row].
      * reflexivity.
      * pose proof (consequent_of_row_ok names (c :: row)) as Hok.
        rewrite bool_decide_eq_true_2 in Hok by done.
        destruct (consequent_of_row fmt_e names (c :: row)) as [b|]; [|discriminate].
        cbn [mbind result_bind]. rewrite IHraise; [reflexivity|].
        intros Hrows. apply H. by constructor.
Qed.

(** X5.  The expression of a row pairs variables and coefficients as far
    as both last: coefficients beyond the number of variables are left out
    of the expression without any error, and so are variables beyond the
    number of coefficients. *)
Theorem consequent_of_row_truncates
    (names more_names : list string) (coeffs more_coeffs : list value)
    (bias : value) :
  length names = length coeffs →
  consequent_of_row fmt_e names (coeffs ++ more_coeffs ++ [bias])
    = consequent_of_row fmt_e names (coeffs ++ [bias])
  ∧ consequent_of_row fmt_e (names ++ more_names) (coeffs ++ [bias])
    = consequent_of_row fmt_e names (coeffs ++ [bias]).
Proof.
  intros Hlen.
  assert (Hzip : ∀ (f : string → value → string) ns cs ns' cs',
            length ns = length cs →
            zip_with f ns (cs ++ cs') = zip_with f ns cs
            ∧ zip_with f (ns ++ ns') cs = zip_with f ns cs).
  { intros f ns. induction ns as [|n ns IH]; intros [|c cs] ns' cs' H;
      simpl in H; try discriminate.
    - split; [reflexivity|]. by destruct ns'.
    - injection H as H. destruct (IH cs ns' cs' H) as [H1 H2].
      cbn [app zip_with]. by rewrite H1, H2. }
  split.
  - rewrite app_assoc, !consequent_of_row_spec.
    by rewrite (proj1 (Hzip _ _ _ [] _ Hlen)).
  - rewrite !consequent_of_row_spec.
    by rewrite (proj2 (Hzip _ _ _ _ [] Hlen)).
Qed.

(** *** When a call returns *)

Lemma for_map_ok {A B} (f : A → result B) l :
  (∀ i a, l !! i = Some a → is_ok (f a) = true) →
  ∃ xs, for_map f l = Ok xs.
Proof.
  induction l as [|a l IH]; intros H; [by eexists|].
  pose proof (H 0 a eq_refl) as Ha.
  destruct IH as [xs Hxs]; [intros i b Hi; by apply (H (S i))|].
  cbn [for_map]. destruct (f a) as [b|]; [|discriminate].
  rewrite Hxs. by eexists.
Qed.

Lemma for_map_ok_inv {A B} (f : A → result B) l xs i a :
  for_map f l = Ok xs → l !! i = Some a → is_ok (f a) = true.
Proof.
  intros Hxs Hi.
  destruct (for_map_lookup _ _ _ _ _ Hxs Hi) as (b & -> & _). reflexivity.
Qed.

(** The membership function is written exactly for the usable entries. *)
Lemma membership_function_ok (fstype : string) (params : list value)
    (term : string) :
  is_ok (membership_function fmt_f fstype params term)
  = usable_fuzzy_set (fstype, params).
Proof.
  unfold membership_function, usable_fuzzy_set.
  repeat (destruct (decide _); [
    destruct params as [|p0 [|p1 [|p2 [|p3 rest]]]];
    cbn [index lookup list_lookup mbind result_bind is_ok length];
    symmetry;
    (apply bool_decide_eq_true_2; lia) || (apply bool_decide_eq_false_2; lia) |]).
  reflexivity.
Qed.

Lemma declaration_ok self num_var cluster :
  is_ok (declaration_of self num_var cluster)
  = match _fuzzy_sets self !! (num_var * _clusters self + cluster) with
    | Some entry => usable_fuzzy_set entry
    | None => false
    end.
Proof.
  unfold fuzzy_set_declaration, index.
  destruct (_fuzzy_sets self !! _) as [[fstype params]|]; [|reflexivity].
  cbn [mbind result_bind]. rewrite <- (membership_function_ok _ _
    ("cluster" +:+ fmt_d (cluster + 1))).
  by destruct (membership_function _ _ _ _).
Qed.

Lemma linguistic_variable_ok self num_var var names :
  is_ok (linguistic_variable str_bounds self num_var var names)
  = match _extreme_values self with
    | Some extreme_values => bool_decide (num_var < length extreme_values)
    | None => true
    end.
Proof.
  unfold linguistic_variable, index.
  destruct (_extreme_values self) as [extreme_values|]; [|reflexivity].
  destruct (extreme_values !! num_var) as [b|] eqn:Hb; cbn [mbind result_bind is_ok].
  - symmetry. apply bool_decide_eq_true_2. by apply lookup_lt_Some in Hb.
  - symmetry. apply bool_decide_eq_false_2. apply lookup_ge_None in Hb. lia.
Qed.

Lemma enumerate_lookup_inv {A} (l : list A) i num a :
  enumerate l !! i = Some (num, a) → num = i ∧ l !! i = Some a.
Proof.
  unfold enumerate. rewrite list_lookup_imap.
  destruct (l !! i); simpl; intros H; [|discriminate]. by inversion H.
Qed.

(** The fuzzy-set block is written exactly when every (variable, cluster)
    pair has a usable entry and every variable has its bounds, if any are
    given. *)
Lemma create_fuzzy_sets_ok self :
  is_ok (fuzzy_sets_of self) = true
  ↔ (∀ num_var cluster,
       num_var < length (_input_variables self) → cluster < _clusters self →
       ∃ entry,
         _fuzzy_sets self !! (num_var * _clusters self + cluster) = Some entry
         ∧ usable_fuzzy_set entry = true)
    ∧ (∀ extreme_values, _extreme_values self = Some extreme_values →
         length (_input_variables self) ≤ length extreme_values).
Proof.
  rewrite create_fuzzy_sets_spec. split.
  - intros Hok.
    destruct (blocks_of self) as [blocks|] eqn:Hblocks; [|discriminate].
    clear Hok. split.
    + intros num_var cluster Hv Hc.
      destruct (lookup_lt_is_Some_2 _ _ Hv) as [var Hvar].
      destruct (blocks_lookup _ _ _ _ Hblocks Hvar) as (b & Hb & _).
      destruct (declaration_lookup _ _ _ _ _ Hb Hc) as (d & Hd & _).
      pose proof (declaration_ok self num_var cluster) as Hok.
      rewrite Hd in Hok. cbn [is_ok] in Hok.
      destruct (_fuzzy_sets self !! _) as [entry|]; [eauto|discriminate].
    + intros extreme_values Hev.
      destruct (decide (length (_input_variables self) = 0)) as [->|Hne]; [lia|].
      destruct (lookup_lt_is_Some_2 (_input_variables self)
                  (length (_input_variables self) - 1) ltac:(lia)) as [var Hvar].
      destruct (blocks_lookup _ _ _ _ Hblocks Hvar) as (b & Hb & _).
      destruct (block_inv _ _ _ _ Hb) as (_ & _ & Hlv & _).
      pose proof (linguistic_variable_ok self
                    (length (_input_variables self) - 1) var (members b)) as Hok.
      rewrite Hlv, Hev in Hok. cbn [is_ok] in Hok.
      symmetry in Hok. apply bool_decide_eq_true in Hok. lia.
  - intros [Hentries Hbounds].
    destruct (for_map_ok (block_of self) (enumerate (_input_variables self)))
      as [blocks Hblocks]; [|unfold fuzzy_set_blocks; by rewrite Hblocks].
    intros i [num_var var] Hi.
    apply enumerate_lookup_inv in Hi as [-> Hvar].
    pose proof (lookup_lt_Some _ _ _ Hvar) as Hv.
    unfold fuzzy_set_block. cbn [fst snd].
    destruct (for_map_ok (declaration_of self i) (range 0 (_clusters self)))
      as [decls ->].
    { intros k cluster Hk. unfold range in Hk.
      apply lookup_seq in Hk as [-> Hk]. rewrite declaration_ok.
      destruct (Hentries i (0 + k) Hv ltac:(lia)) as (entry & -> & Hentry).
      done. }
    cbn [mbind result_bind].
    pose proof (linguistic_variable_ok self i var
                  (kept_names self i (range 0 (_clusters self)))) as Hok.
    destruct (linguistic_variable _ _ _ _ _) as [lv|]; [reflexivity|].
    cbn [is_ok] in Hok.
    destruct (_extreme_values self) as [extreme_values|]; [|discriminate].
    symmetry in Hok. apply bool_decide_eq_false in Hok.
    specialize (Hbounds extreme_values eq_refl). lia.
Qed.

Lemma create_consequents_ok self :
  is_ok (_create_consequents fmt_e self) = true
  ↔ Forall (λ row, row ≠ []) (_consequents_matrix self).
Proof.
  unfold _create_consequents. rewrite Forall_lookup. split.
  - intros Hok i row Hrow.
    destruct (for_map _ _) as [B|] eqn:HB; [|discriminate].
    pose proof (for_map_ok_inv _ _ _ _ _ HB Hrow) as H.
    rewrite consequent_of_row_ok in H. by apply bool_decide_eq_true in H.
  - intros Hrows.
    destruct (for_map_ok (consequent_of_row fmt_e (_input_variables self))
                (_consequents_matrix self)) as [B ->]; [|reflexivity].
    intros i row Hrow. rewrite consequent_of_row_ok.
    apply bool_decide_eq_true_2. by apply (Hrows i).
Qed.

(** X6.  [generate_code] returns a document exactly when: the order is
    "zero", or it is "first" and no row of the matrix is empty; every
    (variable, cluster) pair has an entry in [fuzzy_sets], at position
    variable * clusters + cluster, of a known shape and with the
    parameters that shape reads; and [extreme_values], when given, has an
    entry for every variable.  In every other case it raises. *)
Theorem generate_code_returns_iff self :
  constructed self →
  (∃ text, (generate self).1 = Ok text)
  ↔ (_model_order self = "zero"
     ∨ (_model_order self = "first"
        ∧ Forall (λ row, row ≠ []) (_consequents_matrix self)))
    ∧ (∀ num_var cluster,
         num_var < length (_input_variables self) → cluster < _clusters self →
         ∃ entry,
           _fuzzy_sets self !! (num_var * _clusters self + cluster) = Some entry
           ∧ usable_fuzzy_set entry = true)
    ∧ (∀ extreme_values, _extreme_values self = Some extreme_values →
         length (_input_variables self) ≤ length extreme_values).
Proof.
  intros Hc. rewrite generate_code_result by done.
  rewrite <- create_fuzzy_sets_ok. unfold generated_lines.
  assert (Hout : is_ok (outputs_of self) = true
                 ↔ _model_order self = "zero"
                   ∨ (_model_order self = "first"
                      ∧ Forall (λ row, row ≠ []) (_consequents_matrix self))).
  { rewrite <- create_consequents_ok. unfold output_lines.
    destruct (decide (_model_order self = "first")) as [Hfirst|Hfirst].
    - destruct (_create_consequents fmt_e self); cbn [mbind result_bind is_ok].
      + split; [eauto|done].
      + split; [done|]. intros [Hzero|[_ ?]]; [congruence|done].
    - destruct (decide (_model_order self = "zero")) as [Hzero|Hzero];
        cbn [is_ok]; split; eauto; try done.
      intros [?|[? _]]; done. }
  rewrite <- Hout.
  destruct (outputs_of self) as [outputs|]; cbn [mbind result_bind is_ok].
  - destruct (fuzzy_sets_of self) as [chunk|]; cbn [mbind result_bind is_ok].
    + split; [done|eauto].
    + split; [intros [? ?]; discriminate|intros [_ ?]; discriminate].
  - split; [intros [? ?]; discriminate|intros [? _]; discriminate].
Qed.

(** *** What the document does not depend on *)

Lemma filter_ext_in {A} (P1 P2 : A → Prop)
    `{!∀ x, Decision (P1 x), !∀ x, Decision (P2 x)} (l : list A) :
  (∀ x, x ∈ l → P1 x ↔ P2 x) → filter P1 l = filter P2 l.
Proof.
  induction l as [|a l IH]; intros Hiff; [done|].
  assert (Hl : filter P1 l = filter P2 l).
  { apply IH. intros x Hx. apply Hiff. by right. }
  rewrite !filter_cons, Hl.
  pose proof (Hiff a ltac:(left)) as Ha.
  destruct (decide (P1 a)), (decide (P2 a)); tauto.
Qed.

Lemma blocks_ext self1 self2 :
  _input_variables self1 = _input_variables self2 →
  (∀ num_var var, _input_variables self1 !! num_var = Some var →
     block_of self1 (num_var, var) = block_of self2 (num_var, var)) →
  fuzzy_sets_of self1 = fuzzy_sets_of self2.
Proof.
  intros Hvars H. rewrite !create_fuzzy_sets_spec. unfold fuzzy_set_blocks.
  rewrite <- Hvars. f_equal. apply for_map_ext.
  intros i [num_var var] Hi. apply enumerate_lookup_inv in Hi as [-> Hvar].
  by apply H.
Qed.

(** X7.  [_create_fuzzy_sets] reads the first variables * clusters entries
    of [fuzzy_sets] and nothing after them: two lists that agree there give
    the same text (or the same exception), and so the same document. *)
Theorem fuzzy_sets_beyond_the_model_are_ignored
    self (fuzzy_sets : list (string * list value)) :
  take (length (_input_variables self) * _clusters self) fuzzy_sets
    = take (length (_input_variables self) * _clusters self) (_fuzzy_sets self) →
  fuzzy_sets_of (with_fuzzy_sets self fuzzy_sets) = fuzzy_sets_of self
  ∧ lines_of (with_fuzzy_sets self fuzzy_sets) = lines_of self.
Proof.
  intros Htake.
  assert (H : fuzzy_sets_of (with_fuzzy_sets self fuzzy_sets) = fuzzy_sets_of self).
  { apply blocks_ext; [reflexivity|].
    intros num_var var Hvar. pose proof (lookup_lt_Some _ _ _ Hvar) as Hv.
    cbn [with_fuzzy_sets _input_variables] in Hv.
    unfold fuzzy_set_block. cbn [fst snd].
    rewrite (for_map_ext (declaration_of (with_fuzzy_sets self fuzzy_sets) num_var)
               (declaration_of self num_var)); [reflexivity|].
    intros k cluster Hk. unfold range in Hk. apply lookup_seq in Hk as [-> Hk].
    cbn [with_fuzzy_sets _clusters] in Hk.
    unfold fuzzy_set_declaration, index.
    cbn [with_fuzzy_sets _fuzzy_sets _clusters].
    assert (Hin : num_var * _clusters self + (0 + k)
                  < length (_input_variables self) * _clusters self) by nia.
    rewrite <- (lookup_take_lt fuzzy_sets _ _ Hin), Htake, lookup_take_lt by done.
    reflexivity. }
  split; [done|]. unfold generated_lines. rewrite H. reflexivity.
Qed.

(** X8.  The keys of [fuzzy_sets_to_drop] that name no (variable, cluster)
    pair of the model have no effect: two dictionaries that agree on the
    pairs of the model give the same document. *)
Theorem drop_keys_beyond_the_model_are_ignored
    self (drop : gmap (nat * nat) Z) :
  (∀ num_var cluster,
     num_var < length (_input_variables self) → cluster < _clusters self →
     drop !! (num_var, cluster) = _fuzzy_sets_to_drop self !! (num_var, cluster)) →
  create_rules (with_fuzzy_sets_to_drop self drop) = create_rules self
  ∧ fuzzy_sets_of (with_fuzzy_sets_to_drop self drop) = fuzzy_sets_of self
  ∧ lines_of (with_fuzzy_sets_to_drop self drop) = lines_of self.
Proof.
  intros Hdrop.
  assert (Hrules : create_rules (with_fuzzy_sets_to_drop self drop)
                   = create_rules self).
  { unfold create_rules, _create_antecedents.
    cbn [with_fuzzy_sets_to_drop _clusters _input_variables _fuzzy_sets_to_drop].
    do 2 f_equal. apply list_fmap_ext. intros k i Hk.
    unfold range in Hk. apply lookup_seq in Hk as [-> Hk].
    f_equal. apply list_fmap_ext. intros k' [num_var var] Hk'.
    apply enumerate_lookup_inv in Hk' as [-> Hvar].
    rewrite Hdrop; [reflexivity|by eapply lookup_lt_Some|lia]. }
  assert (Hdropped : ∀ num_var cluster,
            num_var < length (_input_variables self) → cluster < _clusters self →
            dropped (with_fuzzy_sets_to_drop self drop) num_var cluster
            = dropped self num_var cluster).
  { intros num_var cluster Hv Hcl. unfold dropped.
    cbn [with_fuzzy_sets_to_drop _fuzzy_sets_to_drop]. by rewrite Hdrop. }
  assert (H : fuzzy_sets_of (with_fuzzy_sets_to_drop self drop)
              = fuzzy_sets_of self).
  { apply blocks_ext; [reflexivity|].
    intros num_var var Hvar. pose proof (lookup_lt_Some _ _ _ Hvar) as Hv.
    cbn [with_fuzzy_sets_to_drop _input_variables] in Hv.
    unfold fuzzy_set_block. cbn [fst snd].
    rewrite (for_map_ext
               (declaration_of (with_fuzzy_sets_to_drop self drop) num_var)
               (declaration_of self num_var)).
    - assert (Hnames :
          kept_names (with_fuzzy_sets_to_drop self drop) num_var
            (range 0 (_clusters (with_fuzzy_sets_to_drop self drop)))
          = kept_names self num_var (range 0 (_clusters self))).
      { unfold kept_names. cbn [with_fuzzy_sets_to_drop _clusters].
        rewrite (filter_ext_in
                   (λ c, ¬ dropped (with_fuzzy_sets_to_drop self drop) num_var c)
                   (λ c, ¬ dropped self num_var c)); [reflexivity|].
        intros c Hc. unfold range in Hc. apply elem_of_seq in Hc.
        rewrite Hdropped by lia. reflexivity. }
      rewrite Hnames. reflexivity.
    - intros k cluster Hk. unfold range in Hk. apply lookup_seq in Hk as [-> Hk].
      cbn [with_fuzzy_sets_to_drop _clusters] in Hk.
      unfold fuzzy_set_declaration. rewrite Hdropped by lia. reflexivity. }
  split; [done|]. split; [done|].
  unfold generated_lines, rule_lines. rewrite H, Hrules. reflexivity.
Qed.

(** *** Fuzzy sets that are kept *)



(** *** Calling again, and saving *)

Local Abbreviation times := (generate_times fmt_e fmt_f str_row str_bounds).
Local Abbreviation save := (save_code fmt_e fmt_f str_row str_bounds).

Lemma generate_times_appends self (n : nat) :
  constructed self → ∃ appended, times n self = append_source self appended.
Proof.
  intros Hc. induction n as [|n [appended IH]].
  - exists []. by rewrite append_source_nil.
  - cbn [generate_times]. rewrite IH.
    destruct (generate_code_appends (append_source self appended)) as [more ->];
      [by apply constructed_append|].
    rewrite append_source_app. eauto.
Qed.

(** X11.  Calls of [generate_code] on one object add up: when the first
    call returns, the document after [n] calls holds the generated lines
    [n] times after the lines it had before, and call [n + 1] returns them
    [n + 1] times; when the first call raises, every later call raises the
    same exception. *)
Theorem generate_code_n_times self (n : nat) :
  constructed self →
  (∀ lines, lines_of self = Ok lines →
     _source_code (times n self)
       = _source_code self ++ concat (replicate n lines)
     ∧ (generate (times n self)).1
       = Ok (join nl (_source_code self ++ concat (replicate (S n) lines))))
  ∧ (∀ e, lines_of self = Raise e → (generate (times n self)).1 = Raise e).
Proof.
  intros Hc. split.
  - intros lines Hlines.
    assert (Htimes : ∀ k, times k self
                          = append_source self (concat (replicate k lines))).
    { induction k as [|k IH]; [by rewrite append_source_nil|].
      cbn [generate_times]. rewrite IH.
      rewrite (generate_code_ok _ lines);
        [|by apply constructed_append|by rewrite generated_lines_append].
      cbn [snd]. rewrite append_source_app. f_equal.
      rewrite replicate_S_end, concat_app. simpl. by rewrite app_nil_r. }
    rewrite Htimes. split; [reflexivity|].
    rewrite (generate_code_ok _ lines);
      [|by apply constructed_append|by rewrite generated_lines_append].
    cbn [fst append_source _source_code]. do 2 f_equal.
    rewrite <- app_assoc. f_equal.
    rewrite replicate_S_end, concat_app. simpl. by rewrite app_nil_r.
  - intros e Hlines.
    destruct (generate_times_appends self n Hc) as [appended ->].
    apply generate_code_raise; [by apply constructed_append|].
    by rewrite generated_lines_append.
Qed.

(** X12.  When [generate_code] returns and the file can be opened,
    [save_code] leaves in the file exactly the text that [generate_code]
    returned, replacing what the file held, and touches no other file.
    The call has also appended the generated lines to the document of the
    object: the next [generate_code] on it (as in [generate_object] after
    [save_code]) returns a text in which they stand twice. *)
Theorem save_code_writes_and_appends
    (writable : string → bool) (path : string) self
    (files : gmap string string) (lines : list string) :
  constructed self → lines_of self = Ok lines → writable path = true →
  let text := join nl (_source_code self ++ lines) in
  save writable path self files
    = (Saved, append_source self lines, <[path := text]> files)
  ∧ (<[path := text]> files) !! path = Some text
  ∧ (∀ other, other ≠ path → (<[path := text]> files) !! other = files !! other)
  ∧ (generate (save writable path self files).1.2).1
    = Ok (join nl (_source_code self ++ lines ++ lines)).
Proof.
  intros Hc Hlines Hw text.
  assert (Hsave : save writable path self files
                  = (Saved, append_source self lines, <[path := text]> files)).
  { unfold save_code. rewrite (generate_code_ok _ _ Hc Hlines), Hw. reflexivity. }
  split; [done|]. split; [apply lookup_insert_eq|].
  split; [intros other Hne; by apply lookup_insert_ne|].
  rewrite Hsave. cbn [fst snd].
  rewrite (generate_code_ok _ lines);
    [|by apply constructed_append|by rewrite generated_lines_append].
  cbn [fst append_source _source_code]. by rewrite <- app_assoc.
Qed.

(** X13.  When [generate_code] raises, [save_code] raises the same
    exception before it opens the file: no file is created, truncated or
    changed.  When the file cannot be opened, no file changes either.  In
    both cases the document of the object has grown all the same. *)
Theorem save_code_failure_keeps_files
    (writable : string → bool) (path : string) self
    (files : gmap string string) :
  constructed self →
  (∀ e, (generate self).1 = Raise e →
     save writable path self files
       = (GenerationRaised e, (generate self).2, files))
  ∧ (∀ lines, lines_of self = Ok lines → writable path = false →
     save writable path self files = (OSError, append_source self lines, files))
  ∧ ∃ appended,
      _source_code (save writable path self files).1.2
      = _source_code self ++ appended.
Proof.
  intros Hc. split; [|split].
  - intros e He. unfold save_code.
    destruct (generate self) as [[text|e'] self']; cbn [fst snd] in *;
      [discriminate|]. by inversion He.
  - intros lines Hlines Hw. unfold save_code.
    rewrite (generate_code_ok _ _ Hc Hlines), Hw. reflexivity.
  - destruct (generate_code_appends self Hc) as [appended Happ].
    exists appended. unfold save_code.
    destruct (generate self) as [[text|e'] self']; cbn [fst snd] in *;
      subst self'; [destruct (writable path)|]; reflexivity.
Qed.

(** *** Models without variables, models without clusters *)

Lemma for_map_lookup_inv {A B} (f : A → result B) l xs i b :
  for_map f l = Ok xs → xs !! i = Some b →
  ∃ a, l !! i = Some a ∧ f a = Ok b.
Proof.
  revert xs i. induction l as [|a' l IH]; simpl; intros xs i H Hi.
  - inversion H; subst. done.
  - destruct (f a') as [b'|] eqn:Hf; simpl in H; [|discriminate].
    destruct (for_map f l) as [bs|]; simpl in H; [|discriminate].
    inversion H; subst. destruct i as [|i]; simpl in *.
    + inversion Hi; subst. eauto.
    + exact (IH bs i eq_refl Hi).
Qed.

(** X14.  A model without input variables is not refused: every rule is
    written with an empty antecedent, "IF  THEN (OUTPUT IS fun...)", and
    the fuzzy-set block is the empty text, whatever [fuzzy_sets] holds. *)
Theorem no_variables_empty_antecedents self :
  _input_variables self = [] →
  fuzzy_sets_of self = Ok EmptyString
  ∧ ∀ cluster, cluster < _clusters self →
      rule_lines self !! cluster
      = Some (rule_line (cluster + 1)
                ("IF " +:+ EmptyString +:+ " THEN (OUTPUT IS "
                 +:+ ("fun" +:+ fmt_d (cluster + 1)) +:+ ")")).
Proof.
  intros Hvars. split.
  - unfold _create_fuzzy_sets. by rewrite Hvars.
  - intros cluster Hc.
    destruct (rule_lines_lookup self cluster Hc) as (pieces & Hpieces & Hrule).
    rewrite Hvars in Hpieces. by subst pieces.
Qed.


(** *** The text of the fuzzy-set block, pair by pair

    The statements below speak of the text that [_create_fuzzy_sets]
    returns through [fuzzy_set_blocks], which fixes every block, and then
    spell out the parts that matter: nothing in them is left open. *)

Lemma fuzzy_sets_blocks self (chunk : string) :
  fuzzy_sets_of self = Ok chunk →
  ∃ blocks,
    blocks_of self = Ok blocks
    ∧ chunk = concat_strings (render <$> blocks)
    ∧ length blocks = length (_input_variables self).
Proof.
  intros Hchunk. rewrite create_fuzzy_sets_spec in Hchunk.
  destruct (blocks_of self) as [blocks|] eqn:Hblocks;
    simpl in Hchunk; [|discriminate].
  inversion Hchunk; subst chunk.
  exists blocks. split; [done|]. split; [done|]. by apply blocks_length.
Qed.

Lemma blocks_lookup_inv self blocks num_var b :
  blocks_of self = Ok blocks → blocks !! num_var = Some b →
  ∃ var, _input_variables self !! num_var = Some var
         ∧ block_of self (num_var, var) = Ok b.
Proof.
  intros Hblocks Hb.
  destruct (for_map_lookup_inv _ _ _ _ _ Hblocks Hb) as ([v var] & Hlook & Hblock).
  apply enumerate_lookup_inv in Hlook as [-> Hvar]. eauto.
Qed.

Lemma declarations_lookup_inv self num_var var b cluster d :
  block_of self (num_var, var) = Ok b → declarations b !! cluster = Some d →
  cluster < _clusters self ∧ declaration_of self num_var cluster = Ok d.
Proof.
  intros Hb Hd. destruct (block_inv _ _ _ _ Hb) as (Hdecls & _).
  destruct (for_map_lookup_inv _ _ _ _ _ Hdecls Hd) as (c & Hc & Hdecl).
  unfold range in Hc. apply lookup_seq in Hc as [-> Hc]. split; [lia|done].
Qed.

Lemma declaration_inv self num_var cluster d :
  declaration_of self num_var cluster = Ok d →
  ∃ fstype params call,
    _fuzzy_sets self !! (num_var * _clusters self + cluster) = Some (fstype, params)
    ∧ membership_function fmt_f fstype params ("cluster" +:+ fmt_d (cluster + 1))
      = Ok call
    ∧ d = (if dropped self num_var cluster then "# " else EmptyString)
          +:+ fuzzy_set_name self num_var cluster
          +:+ " = FuzzySet(" +:+ call +:+ nl.
Proof.
  unfold fuzzy_set_declaration, index. intros H.
  destruct (_fuzzy_sets self !! _) as [[fstype params]|]; simpl in H; [|discriminate].
  destruct (membership_function _ _ _ _) as [call|] eqn:Hcall;
    simpl in H; [|discriminate].
  inversion H. exists fstype, params, call. by rewrite Hcall.
Qed.

Lemma linguistic_variable_inv self num_var var names lv :
  linguistic_variable str_bounds self num_var var names = Ok lv →
  match _extreme_values self with
  | Some extreme_values =>
      ∃ bs, extreme_values !! num_var = Some bs
        ∧ lv = "MF_" +:+ var +:+ " = LinguisticVariable(["
               +:+ join ", " names +:+ "], concept='" +:+ var
               +:+ "' , universe_of_discourse=" +:+ str_bounds bs
               +:+ ")" +:+ nl
  | None =>
      lv = "MF_" +:+ var +:+ " = LinguisticVariable(["
           +:+ join ", " names +:+ "], concept='" +:+ var
           +:+ "')" +:+ nl
  end.
Proof.
  unfold linguistic_variable, index.
  destruct (_extreme_values self) as [extreme_values|].
  - destruct (extreme_values !! num_var) as [bs|]; simpl; intros H;
      [|discriminate]. exists bs. split; [done|]. by inversion H.
  - intros H. by inversion H.
Qed.

Lemma create_rules_lookup self cluster :
  cluster < _clusters self →
  create_rules self !! cluster
  = Some ("IF " +:+ join " AND "
            ((λ '(j, name),
                "(" +:+ name +:+ " IS " +:+
                match _fuzzy_sets_to_drop self !! (j, cluster) with
                | Some r => "cluster" +:+ fmt_dZ (r + 1)
                | None => "cluster" +:+ fmt_d (cluster + 1)
                end +:+ ")") <$> enumerate (_input_variables self))
          +:+ " THEN (OUTPUT IS " +:+ ("fun" +:+ fmt_d (cluster + 1)) +:+ ")").
Proof.
  intros Hc. unfold create_rules, _create_antecedents.
  rewrite list_lookup_fmap, lookup_zip_with, !list_lookup_fmap.
  rewrite range_lookup by lia. reflexivity.
Qed.

(** C3.  Let the pair (variable [num_var], cluster [cluster]) be a key of
    [fuzzy_sets_to_drop] with value [replacement].  Then, in the text
    returned by [_create_fuzzy_sets], the declaration of that fuzzy set
    starts with the comment mark; the members of the variable's linguistic
    variable are the names of the clusters of that variable that are not
    dropped, in order, so the name of this fuzzy set is not among them;
    and in the rule of that cluster, the clause of that variable names the
    replacement cluster ([replacement + 1] in the document's numbering
    from 1). *)
Theorem dropped_fuzzy_set_commented_and_redirected
    self (num_var cluster : nat) (var : string) (replacement : Z) :
  _fuzzy_sets_to_drop self !! (num_var, cluster) = Some replacement →
  _input_variables self !! num_var = Some var →
  cluster < _clusters self →
  (∀ chunk, fuzzy_sets_of self = Ok chunk →
     ∃ blocks b fstype params call,
       blocks_of self = Ok blocks
       ∧ chunk = concat_strings (render <$> blocks)
       ∧ blocks !! num_var = Some b
       ∧ _fuzzy_sets self !! (num_var * _clusters self + cluster)
         = Some (fstype, params)
       ∧ membership_function fmt_f fstype params
           ("cluster" +:+ fmt_d (cluster + 1)) = Ok call
       ∧ declarations b !! cluster
         = Some ("# " +:+ fuzzy_set_name self num_var cluster
                 +:+ " = FuzzySet(" +:+ call +:+ nl)
       ∧ members b
         = fuzzy_set_name self num_var
           <$> filter (λ c, ¬ dropped self num_var c) (range 0 (_clusters self))
       ∧ (fuzzy_set_name self num_var cluster ∉ members b)
       ∧ (∀ m, m ∈ members b →
            ∃ c, c < _clusters self ∧ c ≠ cluster
                 ∧ m = fuzzy_set_name self num_var c)
       ∧ linguistic_variable str_bounds self num_var var (members b)
         = Ok (lv_declaration b)
       ∧ match _extreme_values self with
         | Some extreme_values =>
             ∃ bs, extreme_values !! num_var = Some bs
               ∧ lv_declaration b
                 = "MF_" +:+ var +:+ " = LinguisticVariable(["
                   +:+ join ", " (members b) +:+ "], concept='" +:+ var
                   +:+ "' , universe_of_discourse=" +:+ str_bounds bs
                   +:+ ")" +:+ nl
         | None =>
             lv_declaration b
             = "MF_" +:+ var +:+ " = LinguisticVariable(["
               +:+ join ", " (members b) +:+ "], concept='" +:+ var
               +:+ "')" +:+ nl
         end)
  ∧ ∃ pieces,
      pieces = (λ '(j, name),
                 "(" +:+ name +:+ " IS " +:+
                 match _fuzzy_sets_to_drop self !! (j, cluster) with
                 | Some r => "cluster" +:+ fmt_dZ (r + 1)
                 | None => "cluster" +:+ fmt_d (cluster + 1)
                 end +:+ ")") <$> enumerate (_input_variables self)
      ∧ length pieces = length (_input_variables self)
      ∧ pieces !! num_var
        = Some ("(" +:+ var +:+ " IS "
                +:+ ("cluster" +:+ fmt_dZ (replacement + 1)) +:+ ")")
      ∧ create_rules self !! cluster
        = Some ("IF " +:+ join " AND " pieces +:+ " THEN (OUTPUT IS "
                +:+ ("fun" +:+ fmt_d (cluster + 1)) +:+ ")")
      ∧ rule_lines self !! cluster
        = Some (rule_line (cluster + 1)
                  ("IF " +:+ join " AND " pieces +:+ " THEN (OUTPUT IS "
                   +:+ ("fun" +:+ fmt_d (cluster + 1)) +:+ ")")).
Proof.
  intros Hdrop Hvar Hc.
  assert (Hd : dropped self num_var cluster = true).
  { apply dropped_lookup. by rewrite Hdrop. }
  split.
  - intros chunk Hchunk.
    destruct (fuzzy_sets_blocks _ _ Hchunk) as (blocks & Hblocks & -> & _).
    destruct (blocks_lookup _ _ _ _ Hblocks Hvar) as (b & Hb & Hlook).
    destruct (declaration_lookup _ _ _ _ _ Hb Hc) as (d & Hd' & Hdlook).
    destruct (block_inv _ _ _ _ Hb) as (_ & Hmem & Hlv & _).
    destruct (declaration_inv _ _ _ _ Hd') as (fstype & params & call & He & Hcall & ->).
    rewrite Hd in Hdlook.
    exists blocks, b, fstype, params, call.
    do 6 (split; [done|]). split; [exact Hmem|].
    split; [|split; [|split; [done|]]].
    + rewrite Hmem. fold (kept_names self num_var (range 0 (_clusters self))).
      rewrite kept_names_elem. intros [_ Hfalse]. congruence.
    + intros m Hm. rewrite Hmem in Hm.
      apply list_elem_of_fmap in Hm as (c & -> & Hcin).
      apply list_elem_of_filter in Hcin as [Hnd Hcin].
      unfold range in Hcin. apply elem_of_seq in Hcin.
      exists c. split; [lia|]. split; [|done].
      intros ->. rewrite Hd in Hnd. by apply Hnd.
    + by apply linguistic_variable_inv.
  - destruct (rule_lines_lookup self cluster Hc) as (pieces & Hpieces & Hrule).
    exists pieces. split; [done|]. split; [|split; [|split; [|done]]].
    + subst pieces. by rewrite length_fmap, length_enumerate.
    + subst pieces.
      rewrite list_lookup_fmap, (enumerate_lookup _ _ _ Hvar). simpl.
      by rewrite Hdrop.
    + subst pieces. exact (create_rules_lookup self cluster Hc).
Qed.

(** C7 (as amended).  The universe of discourse is given for all variables
    or for none.  When [extreme_values] is a list, the declaration of every
    linguistic variable carries the argument [universe_of_discourse] with
    the text of that variable's entry, whatever the entry is; when
    [extreme_values] is [None], no declaration has the argument.  A list
    with fewer entries than there are variables makes [_create_fuzzy_sets]
    raise, so no document is returned. *)
Theorem linguistic_variable_universe_of_discourse self :
  (∀ chunk, fuzzy_sets_of self = Ok chunk →
     ∃ blocks,
       blocks_of self = Ok blocks
       ∧ chunk = concat_strings (render <$> blocks)
       ∧ length blocks = length (_input_variables self)
       ∧ ∀ num_var var, _input_variables self !! num_var = Some var →
           ∃ b, blocks !! num_var = Some b
             ∧ members b
               = fuzzy_set_name self num_var
                 <$> filter (λ c, ¬ dropped self num_var c)
                       (range 0 (_clusters self))
             ∧ match _extreme_values self with
               | Some extreme_values =>
                   ∃ bs, extreme_values !! num_var = Some bs
                     ∧ lv_declaration b
                       = "MF_" +:+ var +:+ " = LinguisticVariable(["
                         +:+ join ", " (members b) +:+ "], concept='" +:+ var
                         +:+ "' , universe_of_discourse=" +:+ str_bounds bs
                         +:+ ")" +:+ nl
               | None =>
                   lv_declaration b
                   = "MF_" +:+ var +:+ " = LinguisticVariable(["
                     +:+ join ", " (members b) +:+ "], concept='" +:+ var
                     +:+ "')" +:+ nl
               end)
  ∧ (∀ extreme_values, _extreme_values self = Some extreme_values →
       length extreme_values < length (_input_variables self) →
       is_ok (fuzzy_sets_of self) = false
       ∧ (constructed self → is_ok (generate self).1 = false)).
Proof.
  split.
  - intros chunk Hchunk.
    destruct (fuzzy_sets_blocks _ _ Hchunk) as (blocks & Hblocks & -> & Hlen).
    exists blocks. do 3 (split; [done|]).
    intros num_var var Hvar.
    destruct (blocks_lookup _ _ _ _ Hblocks Hvar) as (b & Hb & Hlook).
    exists b. split; [done|].
    destruct (block_inv _ _ _ _ Hb) as (_ & Hmem & Hlv & _).
    split; [exact Hmem|]. by apply linguistic_variable_inv.
  - intros extreme_values Hev Hshort.
    assert (Hfs : is_ok (fuzzy_sets_of self) = false).
    { destruct (is_ok (fuzzy_sets_of self)) eqn:Hok; [|reflexivity].
      apply create_fuzzy_sets_ok in Hok as [_ Hbounds].
      specialize (Hbounds _ Hev). lia. }
    split; [done|]. intros Hc. rewrite generate_code_result by done.
    apply is_ok_bind_false. unfold generated_lines.
    destruct (outputs_of self); [|reflexivity]. cbn [mbind result_bind].
    by apply is_ok_bind_false.
Qed.

(** X1.  A call of [generate_code] that returns has appended to the
    document one rule declaration per cluster, the rule registration, a
    blank line, one consequent statement per cluster, a blank line, the
    fuzzy-set block and the trailer, in this order: 2 * clusters + 5
    entries. *)
Theorem generate_code_line_counts self (text : string) :
  constructed self → (generate self).1 = Ok text →
  ∃ outputs chunk,
    outputs_of self = Ok outputs
    ∧ fuzzy_sets_of self = Ok chunk
    ∧ _source_code (generate self).2
      = _source_code self ++ rule_lines self
        ++ [add_rules_line self; EmptyString] ++ outputs
        ++ [EmptyString; chunk; trailer]
    ∧ length (rule_lines self) = _clusters self
    ∧ length outputs = _clusters self
    ∧ length (_source_code (generate self).2)
      = length (_source_code self) + 2 * _clusters self + 5.
Proof.
  intros Hc Htext.
  destruct (lines_of self) as [lines|e] eqn:Hlines.
  - destruct (generated_lines_inv _ _ Hlines) as (outputs & chunk & Hout & Hfs & ->).
    pose proof (output_lines_length _ _ Hc Hout) as Hlen.
    rewrite (generate_code_ok _ _ Hc Hlines).
    cbn [fst snd append_source _source_code].
    exists outputs, chunk. do 3 (split; [done|]).
    split; [apply rule_lines_length|]. split; [done|].
    rewrite !length_app, rule_lines_length, Hlen. simpl. lia.
  - rewrite (generate_code_raise _ _ Hc Hlines) in Htext. discriminate.
Qed.

(** X9.  A (variable, cluster) pair that is not a key of
    [fuzzy_sets_to_drop] gets, in the text that [_create_fuzzy_sets]
    returns, a declaration that is not commented; its name is among the
    members of the variable's linguistic variable, which are the names of
    the clusters that are not dropped; and the clause of the variable in
    the rule of that cluster names that same cluster. *)
Theorem kept_fuzzy_set_declared_and_listed
    self (num_var cluster : nat) (var : string) :
  _fuzzy_sets_to_drop self !! (num_var, cluster) = None →
  _input_variables self !! num_var = Some var →
  cluster < _clusters self →
  (∀ chunk, fuzzy_sets_of self = Ok chunk →
     ∃ blocks b fstype params call,
       blocks_of self = Ok blocks
       ∧ chunk = concat_strings (render <$> blocks)
       ∧ blocks !! num_var = Some b
       ∧ _fuzzy_sets self !! (num_var * _clusters self + cluster)
         = Some (fstype, params)
       ∧ membership_function fmt_f fstype params
           ("cluster" +:+ fmt_d (cluster + 1)) = Ok call
       ∧ declarations b !! cluster
         = Some (fuzzy_set_name self num_var cluster
                 +:+ " = FuzzySet(" +:+ call +:+ nl)
       ∧ members b
         = fuzzy_set_name self num_var
           <$> filter (λ c, ¬ dropped self num_var c) (range 0 (_clusters self))
       ∧ fuzzy_set_name self num_var cluster ∈ members b
       ∧ match _extreme_values self with
         | Some extreme_values =>
             ∃ bs, extreme_values !! num_var = Some bs
               ∧ lv_declaration b
                 = "MF_" +:+ var +:+ " = LinguisticVariable(["
                   +:+ join ", " (members b) +:+ "], concept='" +:+ var
                   +:+ "' , universe_of_discourse=" +:+ str_bounds bs
                   +:+ ")" +:+ nl
         | None =>
             lv_declaration b
             = "MF_" +:+ var +:+ " = LinguisticVariable(["
               +:+ join ", " (members b) +:+ "], concept='" +:+ var
               +:+ "')" +:+ nl
         end)
  ∧ ∃ pieces,
      pieces = (λ '(j, name),
                 "(" +:+ name +:+ " IS " +:+
                 match _fuzzy_sets_to_drop self !! (j, cluster) with
                 | Some r => "cluster" +:+ fmt_dZ (r + 1)
                 | None => "cluster" +:+ fmt_d (cluster + 1)
                 end +:+ ")") <$> enumerate (_input_variables self)
      ∧ pieces !! num_var
        = Some ("(" +:+ var +:+ " IS "
                +:+ ("cluster" +:+ fmt_d (cluster + 1)) +:+ ")")
      ∧ create_rules self !! cluster
        = Some ("IF " +:+ join " AND " pieces +:+ " THEN (OUTPUT IS "
                +:+ ("fun" +:+ fmt_d (cluster + 1)) +:+ ")").
Proof.
  intros Hdrop Hvar Hc.
  assert (Hd : dropped self num_var cluster = false).
  { unfold dropped. apply bool_decide_eq_false_2. rewrite Hdrop.
    by intros [? ?]. }
  split.
  - intros chunk Hchunk.
    destruct (fuzzy_sets_blocks _ _ Hchunk) as (blocks & Hblocks & -> & _).
    destruct (blocks_lookup _ _ _ _ Hblocks Hvar) as (b & Hb & Hlook).
    destruct (declaration_lookup _ _ _ _ _ Hb Hc) as (d & Hd' & Hdlook).
    destruct (block_inv _ _ _ _ Hb) as (_ & Hmem & Hlv & _).
    destruct (declaration_inv _ _ _ _ Hd') as (fstype & params & call & He & Hcall & ->).
    rewrite Hd in Hdlook.
    exists blocks, b, fstype, params, call.
    do 6 (split; [done|]). split; [exact Hmem|]. split.
    + rewrite Hmem. fold (kept_names self num_var (range 0 (_clusters self))).
      rewrite kept_names_elem. split; [|done].
      unfold range. apply elem_of_seq. lia.
    + by apply linguistic_variable_inv.
  - eexists. split; [reflexivity|]. split.
    + rewrite list_lookup_fmap, (enumerate_lookup _ _ _ Hvar). simpl.
      by rewrite Hdrop.
    + exact (create_rules_lookup self cluster Hc).
Qed.

(** X10.  In the text that [_create_fuzzy_sets] returns there is one block
    per variable and, in it, one declaration per cluster; the declaration
    of the pair (variable, cluster) names the fuzzy set FS_n with
    n = variable * clusters + cluster + 1, a number from 1 to
    variables * clusters; and two declarations of the text never name the
    same fuzzy set. *)
Theorem fuzzy_set_names_distinct self (chunk : string) :
  fuzzy_sets_of self = Ok chunk →
  ∃ blocks,
    blocks_of self = Ok blocks
    ∧ chunk = concat_strings (render <$> blocks)
    ∧ length blocks = length (_input_variables self)
    ∧ (∀ v b, blocks !! v = Some b → length (declarations b) = _clusters self)
    ∧ (∀ v b c d, blocks !! v = Some b → declarations b !! c = Some d →
         ∃ call,
           d = (if dropped self v c then "# " else EmptyString)
               +:+ ("FS_" +:+ fmt_d (v * _clusters self + c + 1))
               +:+ " = FuzzySet(" +:+ call +:+ nl
           ∧ 1 ≤ v * _clusters self + c + 1
               ≤ length (_input_variables self) * _clusters self)
    ∧ (∀ v1 b1 c1 d1 v2 b2 c2 d2,
         blocks !! v1 = Some b1 → declarations b1 !! c1 = Some d1 →
         blocks !! v2 = Some b2 → declarations b2 !! c2 = Some d2 →
         "FS_" +:+ fmt_d (v1 * _clusters self + c1 + 1)
           = "FS_" +:+ fmt_d (v2 * _clusters self + c2 + 1) →
         v1 = v2 ∧ c1 = c2).
Proof.
  intros Hchunk.
  destruct (fuzzy_sets_blocks _ _ Hchunk) as (blocks & Hblocks & -> & Hlen).
  exists blocks. do 3 (split; [done|]).
  assert (Hin : ∀ v b c d, blocks !! v = Some b → declarations b !! c = Some d →
            v < length (_input_variables self) ∧ c < _clusters self
            ∧ declaration_of self v c = Ok d).
  { intros v b c d Hb Hd.
    destruct (blocks_lookup_inv _ _ _ _ Hblocks Hb) as (var & Hvar & Hblock).
    destruct (declarations_lookup_inv _ _ _ _ _ _ Hblock Hd) as [Hc Hdecl].
    split; [by eapply lookup_lt_Some|done]. }
  split; [|split].
  - intros v b Hb.
    destruct (blocks_lookup_inv _ _ _ _ Hblocks Hb) as (var & Hvar & Hblock).
    destruct (block_inv _ _ _ _ Hblock) as (Hdecls & _).
    rewrite (for_map_length _ _ _ Hdecls). unfold range.
    rewrite length_seq. lia.
  - intros v b c d Hb Hd.
    destruct (Hin _ _ _ _ Hb Hd) as (Hv & Hc & Hdecl).
    destruct (declaration_inv _ _ _ _ Hdecl) as (fstype & params & call & _ & _ & ->).
    exists call. split; [reflexivity|]. nia.
  - intros v1 b1 c1 d1 v2 b2 c2 d2 Hb1 Hd1 Hb2 Hd2 Hname.
    destruct (Hin _ _ _ _ Hb1 Hd1) as (_ & Hc1 & _).
    destruct (Hin _ _ _ _ Hb2 Hd2) as (_ & Hc2 & _).
    apply (inj (String.app "FS_")) in Hname. unfold fmt_d in Hname.
    apply (inj pretty) in Hname.
    assert (v1 = v2) by nia. subst. split; [done|lia].
Qed.

Lemma for_map_render {A B} (f : A → result B) (r : B → string)
    (g : A → result string) (l : list A) :
  (∀ a, (b ← f a; Ok (r b)) = g a) →
  (bs ← for_map f l; Ok (concat_strings (r <$> bs)))
  = (ts ← for_map g l; Ok (concat_strings ts)).
Proof.
  intros H. induction l as [|a l IH]; [reflexivity|].
  cbn [for_map]. rewrite <- (H a).
  destruct (f a) as [b|]; cbn [mbind result_bind]; [|reflexivity].
  destruct (for_map f l) as [bs|]; destruct (for_map g l) as [ts|];
    cbn [mbind result_bind] in IH |- *;
    try discriminate IH; try exact IH.
  inversion IH as [Heq].
  change (concat_strings (r <$> b :: bs))
    with (r b +:+ concat_strings (r <$> bs)).
  change (concat_strings (r b :: ts)) with (r b +:+ concat_strings ts).
  by rewrite Heq.
Qed.

(** X15.  A model without clusters (an empty consequent matrix, which only
    an order other than "first" lets through construction) is not refused
    by [generate_code]: it appends no rule line and no consequent
    statement, the registration is [FS.add_rules([])], and the fuzzy-set
    block holds, for every variable, the declaration of a linguistic
    variable with the empty list of members and its registration, and no
    fuzzy set. *)
Theorem no_clusters_empty_blocks self :
  constructed self → _clusters self = 0 →
  _model_order self = "first" ∨ _model_order self = "zero" →
  fuzzy_sets_of self
  = (texts ← for_map
       (λ '(num_var, var),
          lv ← linguistic_variable str_bounds self num_var var [];
          Ok (lv +:+ "FS.add_linguistic_variable('" +:+ var +:+ "', MF_"
              +:+ var +:+ ")" +:+ nl +:+ nl))
       (enumerate (_input_variables self));
     Ok (concat_strings texts))
  ∧ (_extreme_values self = None →
     fuzzy_sets_of self
     = Ok (concat_strings
             ((λ var,
                 "MF_" +:+ var +:+ " = LinguisticVariable(["
                 +:+ EmptyString +:+ "], concept='" +:+ var +:+ "')" +:+ nl
                 +:+ "FS.add_linguistic_variable('" +:+ var +:+ "', MF_"
                 +:+ var +:+ ")" +:+ nl +:+ nl) <$> _input_variables self)))
  ∧ ∀ chunk, fuzzy_sets_of self = Ok chunk →
      generate self
      = (Ok (join nl (_source_code self
                      ++ ["FS.add_rules([])"; EmptyString; EmptyString;
                          chunk; trailer])),
         append_source self
           ["FS.add_rules([])"; EmptyString; EmptyString; chunk; trailer]).
Proof.
  intros Hc Hzero Horder.
  assert (Hspec : fuzzy_sets_of self
    = (texts ← for_map
         (λ '(num_var, var),
            lv ← linguistic_variable str_bounds self num_var var [];
            Ok (lv +:+ "FS.add_linguistic_variable('" +:+ var +:+ "', MF_"
                +:+ var +:+ ")" +:+ nl +:+ nl))
         (enumerate (_input_variables self));
       Ok (concat_strings texts))).
  { rewrite create_fuzzy_sets_spec. unfold fuzzy_set_blocks.
    apply for_map_render. intros [num_var var].
    unfold fuzzy_set_block. rewrite Hzero. cbn [fst snd].
    change (range 0 0) with (@nil nat). cbn [for_map mbind result_bind].
    change (kept_names self num_var []) with (@nil string).
    destruct (linguistic_variable str_bounds self num_var var []) as [lv|];
      reflexivity. }
  split; [exact Hspec|]. split.
  - intros Hev. rewrite Hspec. unfold enumerate.
    assert (Hall :
      for_map
        (λ '(num_var, var),
           lv ← linguistic_variable str_bounds self num_var var [];
           Ok (lv +:+ "FS.add_linguistic_variable('" +:+ var +:+ "', MF_"
               +:+ var +:+ ")" +:+ nl +:+ nl))
        (id <$> imap pair (_input_variables self))
      = Ok ((λ nv : nat * string,
               "MF_" +:+ nv.2 +:+ " = LinguisticVariable(["
               +:+ EmptyString +:+ "], concept='" +:+ nv.2 +:+ "')" +:+ nl
               +:+ "FS.add_linguistic_variable('" +:+ nv.2 +:+ "', MF_"
               +:+ nv.2 +:+ ")" +:+ nl +:+ nl)
            <$> imap pair (_input_variables self))).
    { apply for_map_fmap_ok. intros [num_var var].
      unfold linguistic_variable. rewrite Hev.
      cbn [id mbind result_bind fst snd join String.concat]. f_equal.
      by rewrite !append_assoc. }
    rewrite list_fmap_id in Hall. rewrite Hall.
    cbn [mbind result_bind]. do 2 f_equal.
    apply list_eq. intros i.
    rewrite !list_lookup_fmap, list_lookup_imap.
    by destruct (_input_variables self !! i).
  - intros chunk Hchunk. rewrite generate_code_spec by done. cbv zeta.
    assert (Hrules : rule_lines self = []).
    { apply nil_length_inv. by rewrite rule_lines_length. }
    assert (Hadd : add_rules_line self = "FS.add_rules([])").
    { unfold add_rules_line. by rewrite Hzero. }
    assert (Hout : outputs_of self = Ok []).
    { assert (Hm : _consequents_matrix self = []).
      { apply nil_length_inv. by rewrite <- Hc. }
      unfold output_lines, _create_consequents. rewrite Hm.
      destruct Horder as [-> | ->]; reflexivity. }
    rewrite Hout, Hchunk, Hrules, Hadd. reflexivity.
Qed.

End Generation.

(** ** The converter at work on the sample models *)

Section Runs.

Import PyInt Example.
Local Open Scope Z_scope.

Local Abbreviation fuzzy_sets_of := (_create_fuzzy_sets fmt_f str_bounds).
Local Abbreviation lines_of := (generated_lines fmt_e fmt_f str_row str_bounds).

Lemma new_xy :
  new ["x"; "y"] [[1; 2; 3]] [("gauss", [0; 1]); ("gauss", [1; 1])]
    "zero" None None None = Ok xy.
Proof. reflexivity. Qed.

(** C6.  For the variables x and y, the consequent matrix [[1, 2, 3]] of
    order "zero" and the fuzzy sets ("gauss", (0, 1)) and
    ("gauss", (1, 1)), construction succeeds and [generate_code] returns
    the document below: the rule
    IF (x IS cluster1) AND (y IS cluster1) THEN (OUTPUT IS fun1),
    the crisp output of fun1 bound to [1, 2, 3], a Gaussian fuzzy set
    with arguments 0 and 1 and another with 1 and 1, and the linguistic
    variables of x and of y, each registered. *)
Theorem zero_order_example_document :
  ∃ sc,
    new ["x"; "y"] [[1; 2; 3]] [("gauss", [0; 1]); ("gauss", [1; 1])]
      "zero" None None None = Ok sc
    ∧ (generate sc).1 = Ok (join nl [
        "# WARNING: this source code was automatically generated by pyFUME.";
        "from simpful import *";
        EmptyString;
        "FS = FuzzySystem(show_banner=False)";
        "RULE1 = " +:+ dq
          +:+ "IF (x IS cluster1) AND (y IS cluster1) THEN (OUTPUT IS fun1)"
          +:+ dq;
        "FS.add_rules([RULE1])";
        EmptyString;
        "FS.set_crisp_output_value('fun1', [1, 2, 3])";
        EmptyString;
        "FS_1 = FuzzySet(function=Gaussian_MF(0.000000, 1.000000), term='cluster1')";
        "MF_x = LinguisticVariable([FS_1], concept='x')";
        "FS.add_linguistic_variable('x', MF_x)";
        EmptyString;
        "FS_2 = FuzzySet(function=Gaussian_MF(1.000000, 1.000000), term='cluster1')";
        "MF_y = LinguisticVariable([FS_2], concept='y')";
        "FS.add_linguistic_variable('y', MF_y)";
        EmptyString;
        EmptyString;
        "# end of automatically generated code #" ]).
Proof. exists xy. split; [exact new_xy | vm_compute; reflexivity]. Qed.

(** C1, as the specification states it, fails: with one input variable,
    every row should have two entries, yet construction accepts a matrix
    whose second row has three. *)
Lemma init_accepts_ragged_matrix :
  is_ok (new ["x"] ragged_matrix [("gauss", [0; 1]); ("gauss", [1; 1])]
           "first" None None None) = true
  ∧ ¬ Forall (λ row, length row = (length ["x"] + 1)%nat) ragged_matrix.
Proof.
  split; [reflexivity|].
  intros H. apply Forall_cons in H as [_ H]. apply Forall_cons in H as [H _].
  discriminate H.
Qed.

(** C4, as the specification states it, fails: [%e] keeps six digits
    after the point, so the coefficients 12345678 and 12345679 (both
    exact as doubles) are written alike, and the two models get the very
    same document. *)
Lemma percent_e_drops_digits :
  _create_consequents fmt_e (line 12345678) = Ok ["1.234568e+07*x+0.000000e+00"]
  ∧ _create_consequents fmt_e (line 12345679) = Ok ["1.234568e+07*x+0.000000e+00"]
  ∧ is_ok (generate (line 12345678)).1 = true
  ∧ (generate (line 12345678)).1 = (generate (line 12345679)).1
  ∧ _consequents_matrix (line 12345678) ≠ _consequents_matrix (line 12345679).
Proof. repeat split; try (vm_compute; reflexivity). discriminate. Qed.

(** *** The general theorems at the sample models *)


(** A second call on [xy] leaves every generated line twice. *)
Lemma generate_code_twice_on_xy :
  constructed xy
  ∧ ∃ lines,
      lines_of xy = Ok lines
      ∧ _source_code (generate (generate xy).2).2
        = _source_code xy ++ lines ++ lines.
Proof.
  split; [reflexivity|].
  destruct (lines_of xy) as [lines|e] eqn:Hlines;
    [|vm_compute in Hlines; discriminate Hlines].
  exists lines. split; [reflexivity|].
  destruct (proj2 (generate_code_twice_duplicates fmt_e fmt_f str_row str_bounds
                     xy eq_refl) lines Hlines) as (_ & _ & H & _).
  exact H.
Defined.


(** The output function of the model [line 5]. *)
Lemma first_order_output_function_of_line :
  constructed (line 5)
  ∧ _model_order (line 5) = "first"
  ∧ _consequents_matrix (line 5)
    = (λ '(coeffs, bias), coeffs ++ [bias]) <$> [([5], 0)]
  ∧ output_lines fmt_e str_row (line 5)
    = Ok ["FS.set_output_function('fun1', '5.000000e+00*x+0.000000e+00')"].
Proof.
  split; [reflexivity|]. split; [reflexivity|]. split; [reflexivity|].
  exact (proj1 (first_order_output_functions fmt_e fmt_f str_row str_bounds
                  (line 5) [([5], 0)] eq_refl eq_refl eq_refl)).
Defined.



(** [second_order] gets the exception of its model order. *)
Lemma unsupported_order_in_second_order :
  constructed second_order
  ∧ (generate second_order).1
    = Raise (Exception "Model order not supported,second").
Proof.
  split; [reflexivity|].
  apply (proj1 (generate_code_all_or_nothing fmt_e fmt_f str_row str_bounds
                  second_order eq_refl)); discriminate.
Defined.

(** Two constructions of [xy], one with [None] and one with the empty
    dictionary, generate alike. *)
Lemma generate_code_deterministic_on_xy :
  ∃ sc1 sc2,
    new ["x"; "y"] [[1; 2; 3]] [("gauss", [0; 1]); ("gauss", [1; 1])]
      "zero" None None None = Ok sc1
    ∧ new ["x"; "y"] [[1; 2; 3]] [("gauss", [0; 1]); ("gauss", [1; 1])]
        "zero" (Some ∅) None None = Ok sc2
    ∧ (generate sc1).1 = (generate sc2).1.
Proof.
  exists xy, xy. split; [reflexivity|]. split; [reflexivity|].
  exact (proj1 (generate_code_deterministic fmt_e fmt_f str_row str_bounds
                  str_operators ["x"; "y"] [[1; 2; 3]]
                  [("gauss", [0; 1]); ("gauss", [1; 1])] "zero"
                  None (Some ∅) None None xy xy
                  eq_refl eq_refl eq_refl eq_refl)).
Defined.

(** *** The further properties at the sample models *)

Local Abbreviation times := (generate_times fmt_e fmt_f str_row str_bounds).
Local Abbreviation save := (save_code fmt_e fmt_f str_row str_bounds).


(** The failed call on [second_order] leaves its rule lines behind. *)
Lemma raise_keeps_lines_of_second_order :
  constructed second_order
  ∧ (generate second_order).1
    = Raise (Exception "Model order not supported,second")
  ∧ ∃ more,
      _source_code (generate second_order).2
      = _source_code second_order ++ rule_lines second_order
        ++ [add_rules_line second_order; EmptyString] ++ more.
Proof.
  assert (He : (generate second_order).1
               = Raise (Exception "Model order not supported,second"))
    by (vm_compute; reflexivity).
  split; [reflexivity|]. split; [exact He|].
  destruct (generate_code_raise_keeps_lines fmt_e fmt_f str_row str_bounds
              second_order _ eq_refl He) as (more & H & _).
  exists more. exact H.
Defined.

(** The order "second" passes construction. *)
Lemma unsupported_order_constructs :
  "second" ≠ "first"
  ∧ ∃ sc, new ["x"] [[1]] [("gauss", [0; 1])] "second" None None None = Ok sc.
Proof.
  assert (Hne : "second" ≠ "first") by discriminate.
  split; [exact Hne|].
  destruct (unsupported_order_found_late fmt_e fmt_f str_row str_bounds
              str_operators ["x"] [[1]] [("gauss", [0; 1])] "second"
              None None None Hne) as (sc & H & _).
  exists sc. exact H.
Defined.

(** The empty second row of [hollow] makes [_create_consequents] raise. *)
Lemma consequents_of_hollow :
  ¬ Forall (λ row, row ≠ []) (_consequents_matrix hollow)
  ∧ _create_consequents fmt_e hollow = Raise IndexError.
Proof.
  assert (H : ¬ Forall (λ row : list Z, row ≠ []) (_consequents_matrix hollow)).
  { intros H. apply Forall_cons in H as [_ H]. apply Forall_cons in H as [H _].
    by apply H. }
  split; [exact H|].
  exact (proj2 (create_consequents_needs_nonempty_rows fmt_e hollow) H).
Defined.

(** A third entry in a row for one variable is left out. *)
Lemma consequent_of_long_row :
  length ["x"] = length [1]
  ∧ consequent_of_row fmt_e ["x"] [1; 7; 0] = consequent_of_row fmt_e ["x"] [1; 0].
Proof.
  split; [reflexivity|].
  exact (proj1 (consequent_of_row_truncates fmt_e ["x"] ["y"] [1] [7] 0 eq_refl)).
Defined.

(** [generate_code] returns on [xy]. *)
Lemma generate_code_returns_on_xy :
  constructed xy ∧ ∃ text, (generate xy).1 = Ok text.
Proof.
  split; [reflexivity|].
  apply (proj2 (generate_code_returns_iff fmt_e fmt_f str_row str_bounds
                  xy eq_refl)).
  split; [left; reflexivity|]. split.
  - intros num_var cluster Hv Hc.
    destruct cluster as [|cluster]; [|simpl in Hc; lia].
    destruct num_var as [|[|num_var]]; [| |simpl in Hv; lia];
      eexists; split; reflexivity.
  - intros extreme_values H. discriminate H.
Defined.

(** An entry after the two that [simplified] needs is not read. *)
Lemma extra_fuzzy_set_in_simplified :
  take (length (_input_variables simplified) * _clusters simplified)
    (_fuzzy_sets simplified ++ [("triangle", [])])
  = take (length (_input_variables simplified) * _clusters simplified)
      (_fuzzy_sets simplified)
  ∧ fuzzy_sets_of
      (with_fuzzy_sets simplified (_fuzzy_sets simplified ++ [("triangle", [])]))
    = fuzzy_sets_of simplified.
Proof.
  split; [reflexivity|].
  exact (proj1 (fuzzy_sets_beyond_the_model_are_ignored fmt_e fmt_f str_row
                  str_bounds simplified _ eq_refl)).
Defined.

(** A key for variable 5 and cluster 5 means nothing to [simplified]. *)
Lemma extra_drop_key_in_simplified :
  lines_of (with_fuzzy_sets_to_drop simplified
              (<[(5%nat, 5%nat) := 3]> (_fuzzy_sets_to_drop simplified)))
  = lines_of simplified.
Proof.
  apply (drop_keys_beyond_the_model_are_ignored fmt_e fmt_f str_row str_bounds).
  intros num_var cluster Hv Hc. apply lookup_insert_ne.
  intros Heq. injection Heq as <- <-. simpl in Hv. lia.
Defined.



(** Three calls on [xy]. *)
Lemma three_calls_on_xy :
  constructed xy
  ∧ ∃ lines,
      lines_of xy = Ok lines
      ∧ _source_code (times 3 xy)
        = _source_code xy ++ concat (replicate 3 lines).
Proof.
  split; [reflexivity|].
  destruct (lines_of xy) as [lines|e] eqn:Hlines;
    [|vm_compute in Hlines; discriminate Hlines].
  exists lines. split; [reflexivity|].
  exact (proj1 (proj1 (generate_code_n_times fmt_e fmt_f str_row str_bounds
                         xy 3 eq_refl) lines Hlines)).
Defined.

(** Saving [xy] to a fresh file. *)
Lemma save_code_of_xy :
  constructed xy
  ∧ ∃ lines,
      lines_of xy = Ok lines
      ∧ save (λ _, true) "TEST.py" xy ∅
        = (Saved, append_source xy lines,
           <["TEST.py" := join nl (_source_code xy ++ lines)]> ∅).
Proof.
  split; [reflexivity|].
  destruct (lines_of xy) as [lines|e] eqn:Hlines;
    [|vm_compute in Hlines; discriminate Hlines].
  exists lines. split; [reflexivity|].
  exact (proj1 (save_code_writes_and_appends fmt_e fmt_f str_row str_bounds
                  (λ _, true) "TEST.py" xy ∅ lines eq_refl Hlines eq_refl)).
Defined.

(** Saving [second_order] creates no file. *)
Lemma save_code_of_second_order :
  constructed second_order
  ∧ save (λ _, true) "TEST.py" second_order ∅
    = (GenerationRaised (Exception "Model order not supported,second"),
       (generate second_order).2, ∅).
Proof.
  split; [reflexivity|].
  apply (proj1 (save_code_failure_keeps_files fmt_e fmt_f str_row str_bounds
                  (λ _, true) "TEST.py" second_order ∅ eq_refl)).
  vm_compute; reflexivity.
Defined.

(** [constant] has no variable: its rule has no clause. *)
Lemma antecedent_of_constant :
  _input_variables constant = []
  ∧ rule_lines constant !! 0%nat
    = Some ("RULE1 = " +:+ dq +:+ "IF  THEN (OUTPUT IS fun1)" +:+ dq).
Proof.
  split; [reflexivity|].
  exact (proj2 (no_variables_empty_antecedents fmt_f str_bounds constant eq_refl)
           0%nat (Nat.lt_0_succ 0)).
Defined.


(** *** Bounds, dropped and kept fuzzy sets, counts at the sample models *)

(** C7, as the specification states it, fails.  In [half_bounded] no bounds
    are supplied for y (its entry is [None]), yet the declaration of y has
    the argument, with the text None.  In [short_bounded] the list has no
    entry for y at all, and the call raises IndexError. *)
Lemma bounds_are_for_all_variables_or_none :
  _create_fuzzy_sets fmt_f str_optional_bounds half_bounded
  = Ok (concat_strings [
      "FS_1 = FuzzySet(function=Gaussian_MF(0.000000, 1.000000), term='cluster1')"; nl;
      "MF_x = LinguisticVariable([FS_1], concept='x' , universe_of_discourse=(0, 10))"; nl;
      "FS.add_linguistic_variable('x', MF_x)"; nl; nl;
      "FS_2 = FuzzySet(function=Gaussian_MF(1.000000, 1.000000), term='cluster1')"; nl;
      "MF_y = LinguisticVariable([FS_2], concept='y' , universe_of_discourse=None)"; nl;
      "FS.add_linguistic_variable('y', MF_y)"; nl; nl ])
  ∧ _extreme_values half_bounded = Some [Some (0, 10); None]
  ∧ _create_fuzzy_sets fmt_f str_bounds short_bounded = Raise IndexError
  ∧ (generate short_bounded).1 = Raise IndexError.
Proof. repeat split; vm_compute; reflexivity. Qed.

(** In [simplified], the clause of x in the rule of the second cluster
    names the first cluster. *)
Lemma dropped_fuzzy_set_in_simplified :
  _fuzzy_sets_to_drop simplified !! (0%nat, 1%nat) = Some 0
  ∧ _input_variables simplified !! 0%nat = Some "x"
  ∧ (1 < _clusters simplified)%nat
  ∧ ∃ pieces, length pieces = 1%nat ∧ pieces !! 0%nat = Some "(x IS cluster1)".
Proof.
  assert (Hdrop : _fuzzy_sets_to_drop simplified !! (0%nat, 1%nat) = Some 0)
    by (vm_compute; reflexivity).
  assert (Hcl : (1 < _clusters simplified)%nat) by (simpl; lia).
  split; [exact Hdrop|]. split; [reflexivity|]. split; [exact Hcl|].
  destruct (proj2 (dropped_fuzzy_set_commented_and_redirected fmt_f str_bounds
                     simplified 0 1 "x" 0 Hdrop eq_refl Hcl))
    as (pieces & _ & Hlen & Hpiece & _).
  exists pieces. split; [exact Hlen | exact Hpiece].
Defined.

(** The linguistic variable of x in [simplified] has its bounds. *)
Lemma universe_of_discourse_in_simplified :
  ∃ chunk blocks b,
    fuzzy_sets_of simplified = Ok chunk
    ∧ chunk = concat_strings (render <$> blocks)
    ∧ blocks !! 0%nat = Some b
    ∧ lv_declaration b
      = "MF_x = LinguisticVariable([" +:+ join ", " (members b)
        +:+ "], concept='x' , universe_of_discourse=(0, 10))" +:+ nl.
Proof.
  destruct (fuzzy_sets_of simplified) as [chunk|e] eqn:Hchunk;
    [|vm_compute in Hchunk; discriminate Hchunk].
  destruct (proj1 (linguistic_variable_universe_of_discourse fmt_e fmt_f str_row
                     str_bounds simplified) chunk Hchunk)
    as (blocks & _ & Hrender & _ & Hvars).
  destruct (Hvars 0%nat "x" eq_refl) as (b & Hb & _ & bs & Hbs & Hlv).
  exists chunk, blocks, b.
  split; [reflexivity|]. split; [exact Hrender|]. split; [exact Hb|].
  injection Hbs as <-. exact Hlv.
Defined.

(** One call on [xy] appends seven entries. *)
Lemma line_counts_of_xy :
  constructed xy
  ∧ ∃ text,
      (generate xy).1 = Ok text
      ∧ length (_source_code (generate xy).2)
        = (length (_source_code xy) + 7)%nat.
Proof.
  split; [reflexivity|].
  assert (Htext : ∃ text, (generate xy).1 = Ok text)
    by (eexists; vm_compute; reflexivity).
  destruct Htext as [text Htext]. exists text. split; [exact Htext|].
  destruct (generate_code_line_counts fmt_e fmt_f str_row str_bounds
              xy text eq_refl Htext) as (outputs & chunk & _ & _ & _ & _ & _ & Hlen).
  exact Hlen.
Defined.

(** The fuzzy set of the first cluster of [simplified] is kept. *)
Lemma kept_fuzzy_set_in_simplified :
  _fuzzy_sets_to_drop simplified !! (0%nat, 0%nat) = None
  ∧ ∃ pieces : list string, pieces !! 0%nat = Some "(x IS cluster1)".
Proof.
  assert (Hdrop : _fuzzy_sets_to_drop simplified !! (0%nat, 0%nat) = None)
    by (vm_compute; reflexivity).
  split; [exact Hdrop|].
  destruct (proj2 (kept_fuzzy_set_declared_and_listed fmt_f str_bounds
                     simplified 0 0 "x" Hdrop eq_refl (Nat.lt_0_succ 1)))
    as (pieces & _ & Hpiece & _).
  exists pieces. exact Hpiece.
Defined.

(** The text of the fuzzy sets of [xy] has two blocks. *)
Lemma fuzzy_set_blocks_of_xy :
  ∃ chunk blocks,
    fuzzy_sets_of xy = Ok chunk
    ∧ chunk = concat_strings (render <$> blocks)
    ∧ length blocks = 2%nat.
Proof.
  destruct (fuzzy_sets_of xy) as [chunk|e] eqn:Hchunk;
    [|vm_compute in Hchunk; discriminate Hchunk].
  destruct (fuzzy_set_names_distinct fmt_f str_bounds xy chunk Hchunk)
    as (blocks & _ & Hrender & Hlen & _).
  exists chunk, blocks.
  split; [reflexivity|]. split; [exact Hrender | exact Hlen].
Defined.

(** [vacant] has no cluster: its block declares an empty variable. *)
Lemma fuzzy_sets_of_vacant :
  constructed vacant
  ∧ _clusters vacant = 0%nat
  ∧ fuzzy_sets_of vacant
    = Ok ("MF_x = LinguisticVariable([], concept='x')" +:+ nl
          +:+ "FS.add_linguistic_variable('x', MF_x)" +:+ nl +:+ nl).
Proof.
  split; [reflexivity|]. split; [reflexivity|].
  exact (proj1 (proj2 (no_clusters_empty_blocks fmt_e fmt_f str_row str_bounds
                         vacant eq_refl eq_refl (or_intror eq_refl))) eq_refl).
Defined.

End Runs.
